(** * Pytris piece model: a shallow embedding of [models.py]

    The module [models.py] defines the class [Pytromino] (a four-block
    game piece with a centre of rotation and a one-shot placement
    flag), the function [pytromino_factory] (one canonical piece per
    shape tag) and the class [Holder] (a single slot behind an
    open/closed gate).

    Methods that mutate [self] are embedded with explicit state
    passing: a method of return type [A] becomes a function from the
    object before the call to a pair of the returned value and the
    object after the call.  Exceptions are values of the type [exn],
    returned through [result].

    The numeric part of the class is embedded twice: over exact
    rationals, for what follows the control flow of the code, and over
    Python's own [int] and binary64 [float] (module [Py]), for what
    depends on how [+] and [-] round. *)

From Stdlib Require Import ZArith QArith Qcanon List Bool String Lia.
From Stdlib Require Import Floats.
Import ListNotations.

Open Scope Qc_scope.

(** ** Numbers and coordinates

    A coordinate is a Python 2-tuple of numbers.  The block offsets
    are Python [int]s, the centres of rotation of the shapes I and O
    are the floats [0.5] and [-0.5].

    This first embedding takes numbers as exact rationals in canonical
    form ([Qc], whose equality is Leibniz equality).  It is the
    arithmetic of Python's [int]s, and of its floats as long as no
    operation rounds.  It carries the properties that follow the
    control flow of the code and hold whatever [+] and [-] compute,
    and the two that are stated of exact arithmetic (the period of the
    quarter turn).  Whatever depends on the rounding of binary64
    floats is stated in the module [Py] below, which embeds Python's
    [int] and [float] as they are. *)

Definition number : Type := Qc.

Definition int (z : Z) : number := Q2Qc (inject_Z z).

Definition float_half (z : Z) : number := Q2Qc (z # 2).

Definition coord : Type := (number * number)%type.

(** A list of integer tuples, as the literals of the source write them. *)
Definition ints (l : list (Z * Z)) : list coord :=
  map (fun p => (int (fst p), int (snd p))) l.

(** ** Shape tags, Python values and exceptions *)

Module Types.
(** [Pytromino.Types], an [Enum] with seven members. *)
Inductive t : Set := I | O | L | S | T | J | Z.
End Types.

(** The values a caller can hand to [pytromino_factory]: a member of
    [Pytromino.Types], or some other Python object. *)
Inductive PyObject : Type :=
| PyType (t : Types.t)
| PyInt (n : Z)
| PyStr (s : string)
| PyNone.

Inductive exn : Type :=
| ValueError_unknown_block_type (culprit : PyObject)
| AssertionError (msg : string).

Inductive result (A : Type) : Type :=
| Ok (a : A)
| Raise (e : exn).

Arguments Ok {A} a.
Arguments Raise {A} e.

(** ** The class [Pytromino] *)

Definition rgb : Type := (Z * Z * Z)%type.

Record Pytromino : Type := mkPytromino {
  _blocks_pos : list coord;
  _color : rgb;
  _type : Types.t;
  _center_rot : coord;
  _placed : bool
}.

(** [Pytromino.__init__]; the two assertions of the source hold by
    typing. *)
Definition Pytromino_init (block_rel_pos : list coord) (color : rgb)
    (pytromino_type : Types.t) (center_rot : coord) : Pytromino :=
  {| _blocks_pos := block_rel_pos;
     _color := color;
     _type := pytromino_type;
     _center_rot := center_rot;
     _placed := false |}.

(** The default value of the parameter [center_rot]. *)
Definition default_center_rot : coord := (int 0, int 0).

(** Attribute assignments. *)
Definition set_blocks_pos (v : list coord) (self : Pytromino) : Pytromino :=
  {| _blocks_pos := v;
     _color := _color self;
     _type := _type self;
     _center_rot := _center_rot self;
     _placed := _placed self |}.

Definition set_center_rot (v : coord) (self : Pytromino) : Pytromino :=
  {| _blocks_pos := _blocks_pos self;
     _color := _color self;
     _type := _type self;
     _center_rot := v;
     _placed := _placed self |}.

Definition set_placed (v : bool) (self : Pytromino) : Pytromino :=
  {| _blocks_pos := _blocks_pos self;
     _color := _color self;
     _type := _type self;
     _center_rot := _center_rot self;
     _placed := v |}.

(** A method of [Pytromino] returning an [A]. *)
Definition Method (A : Type) : Type := Pytromino -> A * Pytromino.

Definition ret {A : Type} (a : A) : Method A := fun self => (a, self).

Definition bind {A B : Type} (m : Method A) (k : A -> Method B) : Method B :=
  fun self => let (a, self') := m self in k a self'.

Definition get : Method Pytromino := fun self => (self, self).

Definition modify (f : Pytromino -> Pytromino) : Method unit :=
  fun self => (tt, f self).

Notation "x <- m ;; k" := (bind m (fun x => k))
  (at level 61, m at next level, right associativity).
Notation "m ;;; k" := (bind m (fun _ => k))
  (at level 61, right associativity).

(** [rotate_block_90_cw]: reads [self._center_rot], mutates nothing. *)
Definition rotate_block_90_cw (self : Pytromino) (pos : coord) : coord :=
  (snd (_center_rot self) - snd pos + fst (_center_rot self),
   fst pos - fst (_center_rot self) + snd (_center_rot self)).

(** [filter_blocks_pos]: the list comprehension keeps the order. *)
Definition filter_blocks_pos (self : Pytromino) (fn : coord -> bool)
  : list coord :=
  filter fn (_blocks_pos self).

(** The three static transform generators. *)
Definition shift_down_fn (steps : number) : coord -> coord :=
  fun pos => (fst pos, snd pos + steps).

Definition shift_left_fn (steps : number) : coord -> coord :=
  fun pos => (fst pos - steps, snd pos).

Definition shift_right_fn (steps : number) : coord -> coord :=
  fun pos => (fst pos + steps, snd pos).

(** The default validator [lambda pos: True]. *)
Definition always_true : coord -> bool := fun _ => true.

(** The [for] loop of [validated_apply]: [todo] is what remains of
    [self._blocks_pos], [final_pos] the accumulator.  [None] is the
    early [return False]. *)
Fixpoint apply_loop (fn : coord -> coord) (validator : coord -> bool)
    (todo final_pos : list coord) : option (list coord) :=
  match todo with
  | [] => Some final_pos
  | c :: rest =>
      let pos := fn c in
      if validator pos
      then apply_loop fn validator rest (final_pos ++ [pos])
      else None
  end.

Definition validated_apply (fn : coord -> coord) (is_rotation : bool)
    (validator : coord -> bool) : Method bool :=
  self <- get ;;
  match apply_loop fn validator (_blocks_pos self) [] with
  | None => ret false
  | Some final_pos =>
      (if negb is_rotation
       then modify (set_center_rot (fn (_center_rot self)))
       else ret tt) ;;;
      modify (set_blocks_pos final_pos) ;;;
      ret true
  end.

(** [place_at] calls [validated_apply] with [is_rotation=False] and the
    default validator, and drops the returned flag. *)
Definition place_at (coordinate : coord) : Method unit :=
  self <- get ;;
  if negb (_placed self)
  then
    validated_apply
      (fun pos => (fst pos + fst coordinate, snd pos + snd coordinate))
      false always_true ;;;
    modify (set_placed true)
  else ret tt.

Definition is_placed (self : Pytromino) : bool := _placed self.

Definition get_blocks_pos (self : Pytromino) : list coord := _blocks_pos self.

Definition get_color (self : Pytromino) : rgb := _color self.

Definition get_type (self : Pytromino) : Types.t := _type self.

(** ** The palette

    [Color] lives in the module [colors], which is not part of
    [models.py]; the factory only reads the [value] of seven of its
    members.  The palette is therefore a parameter of the factory. *)

Module Color.
Inductive t : Set := CYAN | YELLOW | ORANGE | GREEN | PURPLE | BLUE | RED.
End Color.

Section Factory.

Variable Color_value : Color.t -> rgb.

(** [pytromino_factory]: the [if]/[elif] chain compares the argument
    with each member of [Pytromino.Types] in turn. *)
Definition pytromino_factory (pytromino_type : PyObject)
  : result Pytromino :=
  match pytromino_type with
  | PyType Types.I =>
      Ok (Pytromino_init (ints [(0, 0); (-1, 0); (1, 0); (2, 0)]%Z)
            (Color_value Color.CYAN) Types.I
            (float_half 1, float_half 1))
  | PyType Types.O =>
      Ok (Pytromino_init (ints [(0, 0); (0, -1); (1, -1); (1, 0)]%Z)
            (Color_value Color.YELLOW) Types.O
            (float_half 1, float_half (-1)))
  | PyType Types.L =>
      Ok (Pytromino_init (ints [(0, 0); (-1, 0); (1, 0); (1, -1)]%Z)
            (Color_value Color.ORANGE) Types.L default_center_rot)
  | PyType Types.S =>
      Ok (Pytromino_init (ints [(0, 0); (-1, 0); (0, -1); (1, -1)]%Z)
            (Color_value Color.GREEN) Types.S default_center_rot)
  | PyType Types.T =>
      Ok (Pytromino_init (ints [(0, 0); (0, -1); (-1, 0); (1, 0)]%Z)
            (Color_value Color.PURPLE) Types.T default_center_rot)
  | PyType Types.J =>
      Ok (Pytromino_init (ints [(0, 0); (-1, -1); (-1, 0); (1, 0)]%Z)
            (Color_value Color.BLUE) Types.J default_center_rot)
  | PyType Types.Z =>
      Ok (Pytromino_init (ints [(0, 0); (0, -1); (-1, -1); (1, 0)]%Z)
            (Color_value Color.RED) Types.Z default_center_rot)
  | _ => Raise (ValueError_unknown_block_type pytromino_type)
  end.

(** The states a piece can be in: it comes out of the factory and is
    then mutated by [validated_apply] and [place_at], called with any
    transform, flag, validator and coordinate. *)
Inductive reachable : Pytromino -> Prop :=
| reachable_factory (x : PyObject) (p : Pytromino) :
    pytromino_factory x = Ok p -> reachable p
| reachable_validated_apply (fn : coord -> coord) (is_rotation : bool)
    (validator : coord -> bool) (p : Pytromino) :
    reachable p ->
    reachable (snd (validated_apply fn is_rotation validator p))
| reachable_place_at (coordinate : coord) (p : Pytromino) :
    reachable p -> reachable (snd (place_at coordinate p)).

End Factory.

(** The canonical shape table of the design: offsets and centre of
    rotation per shape, written from the table and not from the code. *)
Definition table_offsets (t : Types.t) : list (Z * Z) :=
  match t with
  | Types.I => [(0, 0); (-1, 0); (1, 0); (2, 0)]
  | Types.O => [(0, 0); (0, -1); (1, -1); (1, 0)]
  | Types.L => [(0, 0); (-1, 0); (1, 0); (1, -1)]
  | Types.S => [(0, 0); (-1, 0); (0, -1); (1, -1)]
  | Types.T => [(0, 0); (0, -1); (-1, 0); (1, 0)]
  | Types.J => [(0, 0); (-1, -1); (-1, 0); (1, 0)]
  | Types.Z => [(0, 0); (0, -1); (-1, -1); (1, 0)]
  end%Z.

Definition table_center (t : Types.t) : coord :=
  match t with
  | Types.I => (Q2Qc (1 # 2), Q2Qc (1 # 2))
  | Types.O => (Q2Qc (1 # 2), Q2Qc (-1 # 2))
  | _ => (Q2Qc 0, Q2Qc 0)
  end.

(** The colour of each shape, by the name the comment of its branch
    gives it. *)
Definition table_color (t : Types.t) : Color.t :=
  match t with
  | Types.I => Color.CYAN
  | Types.O => Color.YELLOW
  | Types.L => Color.ORANGE
  | Types.S => Color.GREEN
  | Types.T => Color.PURPLE
  | Types.J => Color.BLUE
  | Types.Z => Color.RED
  end.

(** ** The class [Holder]

    [Item] is the type of the Python objects a holder is given;
    [None] of [option Item] is Python's [None].  The [assert] of
    [store] is embedded as executed (the interpreter runs without
    [-O]). *)

Record Holder (Item : Type) : Type := mkHolder {
  _item : option Item;
  _can_store : bool
}.

Arguments mkHolder {Item} _ _.
Arguments _item {Item} _.
Arguments _can_store {Item} _.

Section HolderMethods.

Context {Item : Type}.

Definition Holder_init : Holder Item :=
  {| _item := None; _can_store := true |}.

Definition store (item : option Item) (self : Holder Item)
  : result unit * Holder Item :=
  if _can_store self
  then (Ok tt, {| _item := item; _can_store := _can_store self |})
  else (Raise (AssertionError "holder is closed"), self).

Definition open (self : Holder Item) : unit * Holder Item :=
  (tt, {| _item := _item self; _can_store := true |}).

Definition close (self : Holder Item) : unit * Holder Item :=
  (tt, {| _item := _item self; _can_store := false |}).

Definition get_item (self : Holder Item) : option Item := _item self.

Definition is_open (self : Holder Item) : bool := _can_store self.

End HolderMethods.

(** A caller of a holder: the calls that change it, and a run of
    them one after the other.  A [store] that raises is caught by the
    caller, who goes on with the holder as the call left it. *)
Inductive holder_call (Item : Type) : Type :=
| call_store (item : option Item)
| call_open
| call_close.

Arguments call_store {Item} item.
Arguments call_open {Item}.
Arguments call_close {Item}.

Definition holder_step {Item : Type} (c : holder_call Item)
    (self : Holder Item) : Holder Item :=
  match c with
  | call_store item => snd (store item self)
  | call_open => snd (open self)
  | call_close => snd (close self)
  end.

Definition holder_run {Item : Type} (calls : list (holder_call Item))
    (self : Holder Item) : Holder Item :=
  fold_left (fun h c => holder_step c h) calls self.

(** ** [get_unique_rows]

    The method collects [pos[1]] of every block in a Python [set] and
    returns [list(s)].  The set is embedded as a list without
    duplicates, [set_add] being [s.add].  The order in which Python
    lists the members of a set is that of its hash table; the
    embedding lists them in the order of their first insertion, and
    the properties below do not depend on the order. *)
Fixpoint set_add (y : number) (s : list number) : list number :=
  match s with
  | [] => [y]
  | z :: s' => if Qeq_bool y z then s else z :: set_add y s'
  end.

Definition get_unique_rows (self : Pytromino) : list number :=
  fold_left (fun s pos => set_add (snd pos) s) (_blocks_pos self) [].

(** ** Calls of the game loop

    The doctest of [validated_apply] rotates a piece with the call
    [I.validated_apply(I.rotate_block_90_cw, True, validator)]: the
    transform is the method bound to the piece itself. *)
Definition rotate_once (validator : coord -> bool) : Method bool :=
  fun self =>
    validated_apply (rotate_block_90_cw self) true validator self.

(** The states a piece goes through after [origin]: any number of
    [validated_apply] and [place_at] calls. *)
Inductive evolves (origin : Pytromino) : Pytromino -> Prop :=
| evolves_here : evolves origin origin
| evolves_validated_apply (fn : coord -> coord) (is_rotation : bool)
    (validator : coord -> bool) (p : Pytromino) :
    evolves origin p ->
    evolves origin (snd (validated_apply fn is_rotation validator p))
| evolves_place_at (coordinate : coord) (p : Pytromino) :
    evolves origin p -> evolves origin (snd (place_at coordinate p)).


(** * Python's numbers as they are: the module [Py]

    The second embedding of the numeric part of [models.py].  A number
    is a Python [int] (unbounded, [Z]) or a Python [float] (IEEE 754
    binary64, the primitive [float] of the kernel, whose operations
    round to nearest, ties to even).  [a + b] and [a - b] on two ints
    are exact; when one operand is a float the other is converted to a
    float first, and the conversion of an int that is too large raises
    [OverflowError].  A transform can therefore raise, and
    [validated_apply] lets the exception through: it has then assigned
    nothing. *)

Module Py.

Inductive num : Type :=
| Int (z : Z)
| Float (f : float).

(** The value of an expression, or the [OverflowError] it raised. *)
Inductive outcome (A : Type) : Type :=
| Return (a : A)
| OverflowError.

Arguments Return {A} a.
Arguments OverflowError {A}.

Definition bind {A B : Type} (m : outcome A) (k : A -> outcome B)
  : outcome B :=
  match m with
  | Return a => k a
  | OverflowError => OverflowError
  end.

Notation "x <-- m ;; k" := (bind m (fun x => k))
  (at level 61, m at next level, right associativity).

(** [float(z)]: the nearest binary64 number, ties to even;
    [OverflowError] when that is beyond the largest finite float. *)
Definition float_of_int (z : Z) : outcome float :=
  match binary_normalize prec emax z 0 false with
  | S754_infinity _ => OverflowError
  | sf => Return (SF2Prim sf)
  end.

(** [a + b] and [a - b]. *)
Definition add (a b : num) : outcome num :=
  match a, b with
  | Int x, Int y => Return (Int (x + y))
  | Int x, Float g => f <-- float_of_int x ;; Return (Float (PrimFloat.add f g))
  | Float f, Int y => g <-- float_of_int y ;; Return (Float (PrimFloat.add f g))
  | Float f, Float g => Return (Float (PrimFloat.add f g))
  end.

Definition sub (a b : num) : outcome num :=
  match a, b with
  | Int x, Int y => Return (Int (x - y))
  | Int x, Float g => f <-- float_of_int x ;; Return (Float (PrimFloat.sub f g))
  | Float f, Int y => g <-- float_of_int y ;; Return (Float (PrimFloat.sub f g))
  | Float f, Float g => Return (Float (PrimFloat.sub f g))
  end.

Definition coord : Type := (num * num)%type.

Definition int_coord (p : Z * Z) : coord := (Int (fst p), Int (snd p)).

(** A list of integer tuples, as the literals of the source write them. *)
Definition ints (l : list (Z * Z)) : list coord := map int_coord l.

Record Pytromino : Type := mkPytromino {
  _blocks_pos : list coord;
  _color : rgb;
  _type : Types.t;
  _center_rot : coord;
  _placed : bool
}.

Definition Pytromino_init (block_rel_pos : list coord) (color : rgb)
    (pytromino_type : Types.t) (center_rot : coord) : Pytromino :=
  {| _blocks_pos := block_rel_pos;
     _color := color;
     _type := pytromino_type;
     _center_rot := center_rot;
     _placed := false |}.

Definition default_center_rot : coord := (Int 0, Int 0).

(** [rotate_block_90_cw]: the first component of the tuple is
    evaluated first, each from left to right. *)
Definition rotate_block_90_cw (self : Pytromino) (pos : coord)
  : outcome coord :=
  d <-- sub (snd (_center_rot self)) (snd pos) ;;
  x <-- add d (fst (_center_rot self)) ;;
  e <-- sub (fst pos) (fst (_center_rot self)) ;;
  y <-- add e (snd (_center_rot self)) ;;
  Return (x, y).

Definition shift_down_fn (steps : num) : coord -> outcome coord :=
  fun pos => y <-- add (snd pos) steps ;; Return (fst pos, y).

Definition shift_left_fn (steps : num) : coord -> outcome coord :=
  fun pos => x <-- sub (fst pos) steps ;; Return (x, snd pos).

Definition shift_right_fn (steps : num) : coord -> outcome coord :=
  fun pos => x <-- add (fst pos) steps ;; Return (x, snd pos).

Definition always_true : coord -> bool := fun _ => true.

(** The [for] loop of [validated_apply]: [Return None] is the early
    [return False], [OverflowError] an exception raised by [fn]. *)
Fixpoint apply_loop (fn : coord -> outcome coord) (validator : coord -> bool)
    (todo final_pos : list coord) : outcome (option (list coord)) :=
  match todo with
  | [] => Return (Some final_pos)
  | c :: rest =>
      match fn c with
      | OverflowError => OverflowError
      | Return pos =>
          if validator pos
          then apply_loop fn validator rest (final_pos ++ [pos])
          else Return None
      end
  end.

(** [validated_apply]: the returned flag or the exception, and the
    piece after the call.  Both attributes are assigned after the last
    call of [fn], so an exception leaves the piece as it was. *)
Definition validated_apply (fn : coord -> outcome coord) (is_rotation : bool)
    (validator : coord -> bool) (self : Pytromino)
  : outcome bool * Pytromino :=
  match apply_loop fn validator (_blocks_pos self) [] with
  | OverflowError => (OverflowError, self)
  | Return None => (Return false, self)
  | Return (Some final_pos) =>
      if negb is_rotation
      then
        match fn (_center_rot self) with
        | OverflowError => (OverflowError, self)
        | Return center =>
            (Return true,
             {| _blocks_pos := final_pos;
                _color := _color self;
                _type := _type self;
                _center_rot := center;
                _placed := _placed self |})
        end
      else
        (Return true,
         {| _blocks_pos := final_pos;
            _color := _color self;
            _type := _type self;
            _center_rot := _center_rot self;
            _placed := _placed self |})
  end.

(** [place_at]: an exception of [validated_apply] leaves the flag
    unset. *)
Definition place_at (coordinate : coord) (self : Pytromino)
  : outcome unit * Pytromino :=
  if negb (_placed self)
  then
    match
      validated_apply
        (fun pos =>
           x <-- add (fst pos) (fst coordinate) ;;
           y <-- add (snd pos) (snd coordinate) ;;
           Return (x, y))
        false always_true self
    with
    | (OverflowError, self') => (OverflowError, self')
    | (Return _, self') =>
        (Return tt,
         {| _blocks_pos := _blocks_pos self';
            _color := _color self';
            _type := _type self';
            _center_rot := _center_rot self';
            _placed := true |})
    end
  else (Return tt, self).

(** The call [p.validated_apply(p.rotate_block_90_cw, True, validator)]. *)
Definition rotate_once (validator : coord -> bool) (self : Pytromino)
  : outcome bool * Pytromino :=
  validated_apply (rotate_block_90_cw self) true validator self.

(** Whether [(x + n) - n] evaluates to [x] again. *)
Definition round_trip (n x : num) : Prop :=
  exists y : num, add x n = Return y /\ sub y n = Return x.

Section Factory.

Variable Color_value : Color.t -> rgb.

Definition pytromino_factory (pytromino_type : PyObject)
  : result Pytromino :=
  match pytromino_type with
  | PyType Types.I =>
      Ok (Pytromino_init (ints [(0, 0); (-1, 0); (1, 0); (2, 0)]%Z)
            (Color_value Color.CYAN) Types.I
            (Float 0.5%float, Float 0.5%float))
  | PyType Types.O =>
      Ok (Pytromino_init (ints [(0, 0); (0, -1); (1, -1); (1, 0)]%Z)
            (Color_value Color.YELLOW) Types.O
            (Float 0.5%float, Float (-0.5)%float))
  | PyType Types.L =>
      Ok (Pytromino_init (ints [(0, 0); (-1, 0); (1, 0); (1, -1)]%Z)
            (Color_value Color.ORANGE) Types.L default_center_rot)
  | PyType Types.S =>
      Ok (Pytromino_init (ints [(0, 0); (-1, 0); (0, -1); (1, -1)]%Z)
            (Color_value Color.GREEN) Types.S default_center_rot)
  | PyType Types.T =>
      Ok (Pytromino_init (ints [(0, 0); (0, -1); (-1, 0); (1, 0)]%Z)
            (Color_value Color.PURPLE) Types.T default_center_rot)
  | PyType Types.J =>
      Ok (Pytromino_init (ints [(0, 0); (-1, -1); (-1, 0); (1, 0)]%Z)
            (Color_value Color.BLUE) Types.J default_center_rot)
  | PyType Types.Z =>
      Ok (Pytromino_init (ints [(0, 0); (0, -1); (-1, -1); (1, 0)]%Z)
            (Color_value Color.RED) Types.Z default_center_rot)
  | _ => Raise (ValueError_unknown_block_type pytromino_type)
  end.

(** The states in a game of a piece of one of the five shapes whose
    centre of rotation is the reference block (L, S, T, J, Z): it
    comes out of the factory and is moved by the three shifts with an
    [int] number of steps, by rotations about its own centre and by
    [place_at] with [int] coordinates, under any validators. *)
Inductive played : Pytromino -> Prop :=
| played_factory (t : Types.t) (p : Pytromino) :
    t <> Types.I -> t <> Types.O ->
    pytromino_factory (PyType t) = Ok p -> played p
| played_shift_down (n : Z) (validator : coord -> bool) (p : Pytromino) :
    played p ->
    played (snd (validated_apply (shift_down_fn (Int n)) false validator p))
| played_shift_left (n : Z) (validator : coord -> bool) (p : Pytromino) :
    played p ->
    played (snd (validated_apply (shift_left_fn (Int n)) false validator p))
| played_shift_right (n : Z) (validator : coord -> bool) (p : Pytromino) :
    played p ->
    played (snd (validated_apply (shift_right_fn (Int n)) false validator p))
| played_rotate (validator : coord -> bool) (p : Pytromino) :
    played p -> played (snd (rotate_once validator p))
| played_place_at (a b : Z) (p : Pytromino) :
    played p -> played (snd (place_at (Int a, Int b) p)).

End Factory.

End Py.

(** ** Validators used in the examples *)

(** [lambda pos: pos[0] > 0], the validator of the doctest of
    [validated_apply]. *)
Definition positive_x : coord -> bool :=
  fun pos => negb (Qle_bool (this (fst pos)) 0).

(** A validator that accepts the cells of the integer grid only. *)
Definition on_grid : coord -> bool :=
  fun pos =>
    (Qden (this (fst pos)) =? 1)%positive
    && (Qden (this (snd pos)) =? 1)%positive.

(** ** Comparing coordinates

    [==] on tuples of numbers and on lists of them, computed on the
    canonical fractions. *)
Definition coord_eqb (p q : coord) : bool :=
  Qeq_bool (fst p) (fst q) && Qeq_bool (snd p) (snd q).

Fixpoint coords_eqb (l l' : list coord) : bool :=
  match l, l' with
  | [], [] => true
  | p :: l, q :: l' => coord_eqb p q && coords_eqb l l'
  | _, _ => false
  end.

(** Whether the coordinates of a list are pairwise different. *)
Fixpoint coords_nodupb (l : list coord) : bool :=
  match l with
  | [] => true
  | p :: l' => negb (existsb (coord_eqb p) l') && coords_nodupb l'
  end.

(** ** Sample objects

    The pieces the doctests of [models.py] build by hand.  [PURPLE]
    and [CYAN] are the triples the doctests print; [models.py] shows
    no other entry of the palette, and [sample_palette] gives the
    remaining five an arbitrary triple. *)
Definition sample_palette (c : Color.t) : rgb :=
  match c with
  | Color.PURPLE => (146, 44, 140)%Z
  | Color.CYAN => (43, 172, 226)%Z
  | _ => (0, 0, 0)%Z
  end.

Definition sample_T : Pytromino :=
  Pytromino_init (ints [(0, 0); (0, -1); (-1, 0); (1, 0)]%Z)
    (sample_palette Color.PURPLE) Types.T default_center_rot.

Definition sample_S : Pytromino :=
  Pytromino_init (ints [(0, 0); (-1, 0); (0, -1); (1, -1)]%Z)
    (sample_palette Color.GREEN) Types.S default_center_rot.

Definition sample_I : Pytromino :=
  Pytromino_init (ints [(0, 0); (-1, 0); (1, 0); (2, 0)]%Z)
    (sample_palette Color.CYAN) Types.I (float_half 1, float_half 1).


(** The pieces of the factory under Python's arithmetic. *)
Definition py_sample_I : Py.Pytromino :=
  Py.Pytromino_init (Py.ints [(0, 0); (-1, 0); (1, 0); (2, 0)]%Z)
    (sample_palette Color.CYAN) Types.I
    (Py.Float 0.5%float, Py.Float 0.5%float).

Definition py_sample_T : Py.Pytromino :=
  Py.Pytromino_init (Py.ints [(0, 0); (0, -1); (-1, 0); (1, 0)]%Z)
    (sample_palette Color.PURPLE) Types.T Py.default_center_rot.

(** * Properties *)

(** ** The loop of [validated_apply] *)

(** The loop returns the images of all blocks, appended to the
    accumulator in the order of the blocks, when every image passes
    the validator, and leaves early otherwise. *)
Lemma apply_loop_forallb (fn : coord -> coord) (validator : coord -> bool)
    (todo final_pos : list coord) :
  apply_loop fn validator todo final_pos =
  if forallb validator (map fn todo)
  then Some (final_pos ++ map fn todo)
  else None.
Proof.
  revert final_pos.
  induction todo as [| c rest IH]; intros final_pos; simpl.
  - now rewrite app_nil_r.
  - destruct (validator (fn c)); simpl; [| reflexivity].
    rewrite IH, <- app_assoc. reflexivity.
Qed.

(** The call as a whole, by the outcome of the validation. *)
Lemma validated_apply_unfold (fn : coord -> coord) (is_rotation : bool)
    (validator : coord -> bool) (self : Pytromino) :
  validated_apply fn is_rotation validator self =
  if forallb validator (map fn (_blocks_pos self))
  then (true,
        {| _blocks_pos := map fn (_blocks_pos self);
           _color := _color self;
           _type := _type self;
           _center_rot :=
             if is_rotation then _center_rot self
             else fn (_center_rot self);
           _placed := _placed self |})
  else (false, self).
Proof.
  unfold validated_apply, bind, get.
  rewrite apply_loop_forallb.
  destruct (forallb validator (map fn (_blocks_pos self))); [| reflexivity].
  destruct is_rotation; reflexivity.
Qed.

Lemma forallb_always_true (l : list coord) : forallb always_true l = true.
Proof. induction l; simpl; auto. Qed.

Lemma validated_apply_length (fn : coord -> coord) (is_rotation : bool)
    (validator : coord -> bool) (self : Pytromino) :
  List.length (_blocks_pos (snd (validated_apply fn is_rotation validator self))) =
  List.length (_blocks_pos self).
Proof.
  rewrite validated_apply_unfold.
  destruct (forallb validator (map fn (_blocks_pos self))); simpl.
  - apply length_map.
  - reflexivity.
Qed.

(** [place_at], by the value of the flag. *)
Lemma place_at_unfold (coordinate : coord) (self : Pytromino) :
  place_at coordinate self =
  if _placed self then (tt, self)
  else (tt,
        {| _blocks_pos :=
             map (fun pos => (fst pos + fst coordinate,
                              snd pos + snd coordinate))
                 (_blocks_pos self);
           _color := _color self;
           _type := _type self;
           _center_rot :=
             (fst (_center_rot self) + fst coordinate,
              snd (_center_rot self) + snd coordinate);
           _placed := true |}).
Proof.
  unfold place_at, bind at 1, get.
  destruct (_placed self) eqn:Hp; simpl; [reflexivity |].
  unfold bind. rewrite validated_apply_unfold, forallb_always_true.
  reflexivity.
Qed.

Lemma place_at_length (coordinate : coord) (self : Pytromino) :
  List.length (_blocks_pos (snd (place_at coordinate self))) =
  List.length (_blocks_pos self).
Proof.
  rewrite place_at_unfold.
  destruct (_placed self); simpl; [reflexivity | apply length_map].
Qed.

(** Equality of numbers, tuples and lists is decided by computation. *)
Lemma number_eq (a b : number) : Qeq_bool a b = true -> a = b.
Proof. intros H. apply Qc_is_canon. now apply Qeq_bool_eq. Qed.

Lemma coord_eqb_eq (p q : coord) : coord_eqb p q = true -> p = q.
Proof.
  destruct p as [x y], q as [x' y']. unfold coord_eqb. simpl.
  intros H. apply andb_prop in H. destruct H as [Hx Hy].
  f_equal; now apply number_eq.
Qed.

Lemma coords_eqb_eq (l l' : list coord) : coords_eqb l l' = true -> l = l'.
Proof.
  revert l'. induction l as [| p l IH]; intros [| q l']; simpl;
    try discriminate; [reflexivity |].
  intros H. apply andb_prop in H. destruct H as [Hp Hl].
  f_equal; [now apply coord_eqb_eq | now apply IH].
Qed.

Ltac numbers :=
  first [ apply coords_eqb_eq | apply coord_eqb_eq | apply number_eq ];
  vm_compute; reflexivity.


Lemma forallb_true_Forall (validator : coord -> bool) (l : list coord) :
  forallb validator l = true <-> Forall (fun c => validator c = true) l.
Proof.
  rewrite forallb_forall, Forall_forall. reflexivity.
Qed.

(** ** Atomicity of [validated_apply] *)



(** ** The centre of rotation under [validated_apply] *)

(** C7.  After a successful call the centre of rotation is the old one
    when [is_rotation] is set, and the image of the old one under [fn]
    when it is not. *)
Theorem validated_apply_center_rot (fn : coord -> coord)
    (is_rotation : bool) (validator : coord -> bool) (self : Pytromino) :
  fst (validated_apply fn is_rotation validator self) = true ->
  (is_rotation = true ->
   _center_rot (snd (validated_apply fn is_rotation validator self))
   = _center_rot self)
  /\ (is_rotation = false ->
      _center_rot (snd (validated_apply fn is_rotation validator self))
      = fn (_center_rot self)).
Proof.
  rewrite validated_apply_unfold.
  destruct (forallb validator (map fn (_blocks_pos self))); simpl.
  - intros _. split; intros ->; reflexivity.
  - discriminate.
Qed.

(** The I piece of the doctest: a rotation keeps the centre
    [(0.5, 0.5)], a shift to the right moves it to [(1.5, 0.5)]. *)
Lemma validated_apply_center_rot_witness :
  _center_rot
    (snd (validated_apply (rotate_block_90_cw sample_I) true always_true
            sample_I))
  = _center_rot sample_I
  /\ _center_rot
       (snd (validated_apply (shift_right_fn (int 1)) false always_true
               sample_I))
     = shift_right_fn (int 1) (_center_rot sample_I).
Proof.
  split.
  - apply (proj1 (validated_apply_center_rot
                    (rotate_block_90_cw sample_I) true always_true sample_I
                    eq_refl)).
    reflexivity.
  - apply (proj2 (validated_apply_center_rot
                    (shift_right_fn (int 1)) false always_true sample_I
                    eq_refl)).
    reflexivity.
Defined.

(** C10.  The validator sees the images of the blocks only.  A call
    with [is_rotation=False] whose block images all pass succeeds and
    moves the centre of rotation to its image under [fn], also when the
    validator rejects that image. *)
Theorem validated_apply_center_not_validated (fn : coord -> coord)
    (validator : coord -> bool) (self : Pytromino) :
  Forall (fun c => validator c = true) (map fn (_blocks_pos self)) ->
  validator (fn (_center_rot self)) = false ->
  fst (validated_apply fn false validator self) = true
  /\ _center_rot (snd (validated_apply fn false validator self))
     = fn (_center_rot self).
Proof.
  intros Hall _.
  apply forallb_true_Forall in Hall.
  rewrite validated_apply_unfold, Hall. simpl. split; reflexivity.
Qed.

(** The I piece shifted one step to the right: its four blocks stay on
    the integer grid, its centre goes to [(1.5, 0.5)], off the grid. *)
Lemma validated_apply_center_not_validated_witness :
  on_grid (shift_right_fn (int 1) (_center_rot sample_I)) = false
  /\ fst (validated_apply (shift_right_fn (int 1)) false on_grid sample_I)
     = true
  /\ _center_rot
       (snd (validated_apply (shift_right_fn (int 1)) false on_grid sample_I))
     = shift_right_fn (int 1) (_center_rot sample_I).
Proof.
  split; [vm_compute; reflexivity |].
  apply (validated_apply_center_not_validated
           (shift_right_fn (int 1)) on_grid sample_I).
  - repeat constructor.
  - vm_compute. reflexivity.
Defined.

(** ** The tetromino invariant *)

Lemma pytromino_factory_length (Color_value : Color.t -> rgb)
    (x : PyObject) (p : Pytromino) :
  pytromino_factory Color_value x = Ok p ->
  List.length (_blocks_pos p) = 4%nat.
Proof.
  destruct x as [[] | n | s |]; simpl; intros H; inversion H; reflexivity.
Qed.

(** C2.  Every state of a piece that the factory built, reached by any
    sequence of [validated_apply] and [place_at] calls, has exactly
    four blocks. *)
Theorem reachable_four_blocks (Color_value : Color.t -> rgb)
    (p : Pytromino) :
  reachable Color_value p -> List.length (_blocks_pos p) = 4%nat.
Proof.
  induction 1 as [x p Hx | fn rot v p _ IH | c p _ IH].
  - exact (pytromino_factory_length Color_value x p Hx).
  - now rewrite validated_apply_length.
  - now rewrite place_at_length.
Qed.

(** The S piece of the factory, rotated once and then placed at
    [(2, 2)]. *)
Lemma reachable_four_blocks_witness :
  List.length
    (_blocks_pos
       (snd (place_at (int 2, int 2)
               (snd (validated_apply (rotate_block_90_cw sample_S) true
                       always_true sample_S)))))
  = 4%nat.
Proof.
  apply (reachable_four_blocks sample_palette).
  apply reachable_place_at, reachable_validated_apply.
  apply (reachable_factory sample_palette (PyType Types.S)).
  reflexivity.
Defined.

(** ** [place_at] *)



(** The numbers of that doctest: the blocks and the centre after
    [place_at((2, 2))], and after a late [place_at((1, 1))]. *)
Example place_at_doctest :
  let S1 := snd (place_at (int 2, int 2) sample_S) in
  let S2 := snd (place_at (int 1, int 1) S1) in
  is_placed sample_S = false
  /\ is_placed S1 = true
  /\ get_blocks_pos S1 = ints [(2, 2); (1, 2); (2, 1); (3, 1)]%Z
  /\ _center_rot S1 = (int 2, int 2)
  /\ get_blocks_pos S2 = ints [(2, 2); (1, 2); (2, 1); (3, 1)]%Z.
Proof.
  cbv zeta. unfold is_placed, get_blocks_pos.
  rewrite !place_at_unfold. simpl.
  split; [reflexivity |]. split; [reflexivity |].
  split; [numbers |]. split; numbers.
Qed.

(** ** The factory *)

(** C4.  For each of the seven shape tags the factory returns a piece
    that is not placed, with the offsets and the centre of rotation of
    the canonical table, the colour of the shape and the tag itself;
    the shape T has the offsets [(0,0), (0,-1), (-1,0), (1,0)] and the
    centre [(0, 0)], the shapes I and O the centres [(0.5, 0.5)] and
    [(0.5, -0.5)].  Any other argument raises the [ValueError] of an
    unknown block type. *)
Theorem pytromino_factory_table (Color_value : Color.t -> rgb)
    (x : PyObject) :
  match x with
  | PyType t =>
      pytromino_factory Color_value x =
      Ok {| _blocks_pos := ints (table_offsets t);
            _color := Color_value (table_color t);
            _type := t;
            _center_rot := table_center t;
            _placed := false |}
  | _ =>
      pytromino_factory Color_value x =
      Raise (ValueError_unknown_block_type x)
  end
  /\ pytromino_factory Color_value (PyType Types.T) =
     Ok {| _blocks_pos :=
             [(int 0, int 0); (int 0, int (-1)); (int (-1), int 0);
              (int 1, int 0)];
           _color := Color_value Color.PURPLE;
           _type := Types.T;
           _center_rot := (int 0, int 0);
           _placed := false |}.
Proof.
  split; [| reflexivity].
  destruct x as [[] | n | s |]; reflexivity.
Qed.

(** The piece the factory builds for a tag is the one the doctests
    build by hand. *)
Example pytromino_factory_samples :
  pytromino_factory sample_palette (PyType Types.T) = Ok sample_T
  /\ pytromino_factory sample_palette (PyType Types.S) = Ok sample_S
  /\ pytromino_factory sample_palette (PyType Types.I) = Ok sample_I
  /\ pytromino_factory sample_palette (PyInt 1) =
     Raise (ValueError_unknown_block_type (PyInt 1)).
Proof. repeat split. Qed.

(** ** Rotation by a quarter turn *)

(** C5.  For a piece whose centre of rotation is [(cx, cy)], integer
    or fractional, [rotate_block_90_cw] sends [(px, py)] to
    [(cy - py + cx, px - cx + cy)]. *)
Theorem rotate_block_90_cw_formula (self : Pytromino)
    (cx cy px py : number) :
  _center_rot self = (cx, cy) ->
  rotate_block_90_cw self (px, py) = (cy - py + cx, px - cx + cy).
Proof.
  intros Hc. unfold rotate_block_90_cw. rewrite Hc. reflexivity.
Qed.

(** The I piece turns about [(0.5, 0.5)]: its block [(2, 0)] goes to
    [(0.5 - 0 + 0.5, 2 - 0.5 + 0.5)]. *)
Lemma rotate_block_90_cw_formula_witness :
  rotate_block_90_cw sample_I (int 2, int 0) =
  (float_half 1 - int 0 + float_half 1, int 2 - float_half 1 + float_half 1).
Proof.
  apply (rotate_block_90_cw_formula sample_I
           (float_half 1) (float_half 1) (int 2) (int 0)).
  reflexivity.
Defined.

(** The doctests of [rotate_block_90_cw] on the T piece, and the
    rotation of the I piece in the doctest of [validated_apply]. *)
Example rotate_block_90_cw_doctest :
  rotate_block_90_cw sample_T (int (-1), int 0) = (int 0, int (-1))
  /\ rotate_block_90_cw sample_T (int 0, int 0) = (int 0, int 0)
  /\ rotate_block_90_cw sample_T (int 1, int 0) = (int 0, int 1)
  /\ validated_apply (rotate_block_90_cw sample_I) true always_true sample_I
     = (true,
        set_blocks_pos (ints [(1, 0); (1, -1); (1, 1); (1, 2)]%Z) sample_I).
Proof.
  split; [numbers |]. split; [numbers |]. split; [numbers |].
  rewrite validated_apply_unfold, forallb_always_true.
  unfold set_blocks_pos. simpl. do 2 f_equal. numbers.
Qed.

(** C6.  [rotate_block_90_cw] fixes the centre of rotation, and four
    quarter turns bring every point back to itself, in exact
    arithmetic, whatever the centre. *)
Theorem rotate_block_90_cw_four_times (self : Pytromino) :
  rotate_block_90_cw self (_center_rot self) = _center_rot self
  /\ forall p : coord,
       rotate_block_90_cw self
         (rotate_block_90_cw self
            (rotate_block_90_cw self (rotate_block_90_cw self p))) = p.
Proof.
  unfold rotate_block_90_cw.
  destruct (_center_rot self) as [cx cy]. simpl. split.
  - apply (f_equal2 (@pair Qc Qc)); ring.
  - intros [px py]. simpl. apply (f_equal2 (@pair Qc Qc)); ring.
Qed.

(** ** Shifts *)

(** The doctests of the three generators. *)
Example shift_fn_doctest :
  shift_down_fn (int 1) (int 0, int 0) = (int 0, int 1)
  /\ shift_down_fn (int 3) (int 0, int 0) = (int 0, int 3)
  /\ shift_left_fn (int 1) (int 0, int 0) = (int (-1), int 0)
  /\ shift_left_fn (int 3) (int 0, int 0) = (int (-3), int 0)
  /\ shift_right_fn (int 1) (int 0, int 0) = (int 1, int 0)
  /\ shift_right_fn (int 3) (int 0, int 0) = (int 3, int 0).
Proof. repeat (split; [numbers |]). numbers. Qed.

(** The doctest of [validated_apply] on the T piece: the accepted
    shift. *)
Example validated_apply_doctest :
  validated_apply (shift_right_fn (int 1)) false always_true sample_T
  = (true,
     set_center_rot (int 1, int 0)
       (set_blocks_pos (ints [(1, 0); (1, -1); (0, 0); (2, 0)]%Z) sample_T)).
Proof.
  rewrite validated_apply_unfold, forallb_always_true.
  unfold set_center_rot, set_blocks_pos. simpl.
  assert (Hb : map (shift_right_fn (int 1)) (_blocks_pos sample_T)
               = ints [(1, 0); (1, -1); (0, 0); (2, 0)]%Z) by numbers.
  assert (Hc : shift_right_fn (int 1) default_center_rot = (int 1, int 0))
    by numbers.
  simpl in Hb. rewrite Hb, Hc. reflexivity.
Qed.

(** ** The holder *)

(** C9.  [store] on a closed holder raises the [AssertionError] of the
    closed gate and leaves the holder as it was; on an open holder it
    returns normally and the item held is the one given, whatever was
    held before.  [get_item] returns the item held, [None] on a new
    holder, and the same item after [close] and after [open]. *)
Theorem holder_store_gate {Item : Type} (self : Holder Item)
    (item : option Item) :
  (_can_store self = false ->
   store item self = (Raise (AssertionError "holder is closed"), self)
   /\ get_item (snd (store item self)) = get_item self)
  /\ (_can_store self = true ->
      fst (store item self) = Ok tt
      /\ get_item (snd (store item self)) = item
      /\ is_open (snd (store item self)) = true)
  /\ get_item self = _item self
  /\ get_item (snd (close self)) = get_item self
  /\ is_open (snd (close self)) = false
  /\ get_item (snd (open self)) = get_item self
  /\ get_item (@Holder_init Item) = None.
Proof.
  split; [| split].
  - intros Hclosed. unfold store. rewrite Hclosed. split; reflexivity.
  - intros Hopen. unfold store. rewrite Hopen. repeat split.
  - repeat split.
Qed.

(** A holder that stored [1] and was closed refuses [2] and still
    holds [1]. *)
Lemma holder_store_gate_witness :
  let h : Holder Z := snd (close (snd (store (Some 1%Z) Holder_init))) in
  store (Some 2%Z) h = (Raise (AssertionError "holder is closed"), h)
  /\ get_item (snd (store (Some 2%Z) h)) = Some 1%Z.
Proof.
  apply (proj1 (holder_store_gate
                  (snd (close (snd (store (Some 1%Z) Holder_init))))
                  (Some 2%Z))).
  reflexivity.
Defined.

(** The doctest of [Holder]. *)
Example holder_doctest :
  let h0 : Holder Z := Holder_init in
  let h1 := snd (store (Some 1%Z) h0) in
  let h2 := snd (close h1) in
  let h3 := snd (open h2) in
  is_open h0 = true
  /\ fst (store (Some 1%Z) h0) = Ok tt
  /\ get_item h1 = Some 1%Z
  /\ get_item h2 = Some 1%Z
  /\ is_open h2 = false
  /\ is_open h3 = true.
Proof. repeat split. Qed.

(** The doctests of [filter_blocks_pos] on the S piece. *)
Example filter_blocks_pos_doctest :
  filter_blocks_pos sample_S (fun pos => Qeq_bool (fst pos) 0)
  = ints [(0, 0); (0, -1)]%Z
  /\ filter_blocks_pos sample_S
       (fun pos => negb (Qle_bool 0 (fst pos * snd pos)))
     = ints [(1, -1)]%Z.
Proof. split; reflexivity. Qed.

(** * Further properties of the piece *)

(** ** What a call leaves alone *)


(** X2.  Along any sequence of [validated_apply] and [place_at] calls
    the colour, the type tag and the number of blocks stay what they
    were, and a piece that is placed stays placed: nothing clears the
    flag. *)
Theorem evolves_keeps_identity (origin p : Pytromino) :
  evolves origin p ->
  get_color p = get_color origin
  /\ get_type p = get_type origin
  /\ List.length (get_blocks_pos p) = List.length (get_blocks_pos origin)
  /\ (is_placed origin = true -> is_placed p = true).
Proof.
  unfold get_color, get_type, get_blocks_pos, is_placed.
  induction 1 as [| fn rot v p _ IH | c p _ IH].
  - auto.
  - destruct IH as (Hc & Ht & Hl & Hp).
    rewrite validated_apply_length.
    rewrite validated_apply_unfold.
    destruct (forallb v (map fn (_blocks_pos p))); simpl; auto.
  - destruct IH as (Hc & Ht & Hl & Hp).
    rewrite place_at_length.
    rewrite place_at_unfold.
    destruct (_placed p) eqn:Hq; simpl; auto.
Qed.

(** The S piece placed at [(2, 2)] and then shifted and placed again. *)
Lemma evolves_keeps_identity_witness :
  let p1 := snd (place_at (int 2, int 2) sample_S) in
  let p3 :=
    snd (place_at (int 1, int 1)
           (snd (validated_apply (shift_down_fn (int 1)) false always_true
                   p1))) in
  get_color p3 = get_color p1
  /\ get_type p3 = get_type p1
  /\ List.length (get_blocks_pos p3) = List.length (get_blocks_pos p1)
  /\ (is_placed p1 = true -> is_placed p3 = true).
Proof.
  cbv zeta.
  apply (evolves_keeps_identity (snd (place_at (int 2, int 2) sample_S))).
  apply evolves_place_at, evolves_validated_apply, evolves_here.
Defined.

(** ** Two calls in a row *)

(** X3.  Two accepted transforms in a row, neither flagged as a
    rotation, leave the piece where the composed transform puts it:
    blocks and centre are the images under [g] after [fn]. *)
Theorem validated_apply_twice (fn g : coord -> coord)
    (v1 v2 : coord -> bool) (self : Pytromino) :
  let first := validated_apply fn false v1 self in
  let second := validated_apply g false v2 (snd first) in
  fst first = true ->
  fst second = true ->
  snd second
  = snd (validated_apply (fun pos => g (fn pos)) false always_true self).
Proof.
  cbv zeta.
  rewrite (validated_apply_unfold fn false v1 self).
  destruct (forallb v1 (map fn (_blocks_pos self))); simpl;
    [intros _ | discriminate].
  rewrite validated_apply_unfold. simpl.
  destruct (forallb v2 (map g (map fn (_blocks_pos self)))); simpl;
    [intros _ | discriminate].
  rewrite validated_apply_unfold, forallb_always_true. simpl.
  now rewrite map_map.
Qed.

(** The T piece shifted one step right and then three steps down. *)
Lemma validated_apply_twice_witness :
  snd (validated_apply (shift_down_fn (int 3)) false always_true
         (snd (validated_apply (shift_right_fn (int 1)) false positive_x
                 (snd (place_at (int 2, int 2) sample_T)))))
  = snd (validated_apply
           (fun pos => shift_down_fn (int 3) (shift_right_fn (int 1) pos))
           false always_true (snd (place_at (int 2, int 2) sample_T))).
Proof.
  apply (validated_apply_twice (shift_right_fn (int 1))
           (shift_down_fn (int 3)) positive_x always_true
           (snd (place_at (int 2, int 2) sample_T)));
    vm_compute; reflexivity.
Defined.

(** ** Rotating a piece *)

Lemma rotate_block_90_cw_center (p q : Pytromino) :
  _center_rot p = _center_rot q ->
  rotate_block_90_cw p = rotate_block_90_cw q.
Proof. unfold rotate_block_90_cw. now intros ->. Qed.

(** An accepted rotation stores the rotated blocks and nothing else. *)
Lemma rotate_once_accepted (validator : coord -> bool) (self : Pytromino) :
  fst (rotate_once validator self) = true ->
  snd (rotate_once validator self)
  = set_blocks_pos (map (rotate_block_90_cw self) (_blocks_pos self)) self.
Proof.
  unfold rotate_once. rewrite validated_apply_unfold.
  destruct (forallb validator _); simpl; [reflexivity | discriminate].
Qed.

Lemma map_rotate_four_times (self : Pytromino) (l : list coord) :
  map (rotate_block_90_cw self)
    (map (rotate_block_90_cw self)
       (map (rotate_block_90_cw self)
          (map (rotate_block_90_cw self) l))) = l.
Proof.
  rewrite !map_map.
  induction l as [| pos l IH]; simpl; [reflexivity |].
  rewrite IH. f_equal.
  unfold rotate_block_90_cw.
  destruct (_center_rot self) as [cx cy], pos as [px py]. simpl.
  apply (f_equal2 (@pair Qc Qc)); ring.
Qed.

(** X4.  Four accepted rotations of a piece about its own centre, under
    any four validators, give back the piece exactly as it was. *)
Theorem rotate_once_four_times (v1 v2 v3 v4 : coord -> bool)
    (self : Pytromino) :
  let r1 := rotate_once v1 self in
  let r2 := rotate_once v2 (snd r1) in
  let r3 := rotate_once v3 (snd r2) in
  let r4 := rotate_once v4 (snd r3) in
  fst r1 = true -> fst r2 = true -> fst r3 = true -> fst r4 = true ->
  snd r4 = self.
Proof.
  cbv zeta. intros H1.
  rewrite (rotate_once_accepted v1 self H1).
  set (p1 := set_blocks_pos _ self).
  intros H2. rewrite (rotate_once_accepted v2 p1 H2).
  set (p2 := set_blocks_pos _ p1).
  intros H3. rewrite (rotate_once_accepted v3 p2 H3).
  set (p3 := set_blocks_pos _ p2).
  intros H4. rewrite (rotate_once_accepted v4 p3 H4).
  assert (E1 : rotate_block_90_cw p1 = rotate_block_90_cw self)
    by (apply rotate_block_90_cw_center; reflexivity).
  assert (E2 : rotate_block_90_cw p2 = rotate_block_90_cw self)
    by (apply rotate_block_90_cw_center; reflexivity).
  assert (E3 : rotate_block_90_cw p3 = rotate_block_90_cw self)
    by (apply rotate_block_90_cw_center; reflexivity).
  rewrite E3. unfold p3. cbn [set_blocks_pos _blocks_pos].
  rewrite E2. unfold p2. cbn [set_blocks_pos _blocks_pos].
  rewrite E1. unfold p1. cbn [set_blocks_pos _blocks_pos _color _type
                               _center_rot _placed].
  rewrite map_rotate_four_times.
  destruct self; reflexivity.
Qed.

(** The I piece, which turns about [(0.5, 0.5)], under the default
    validator. *)
Lemma rotate_once_four_times_witness :
  snd (rotate_once always_true
         (snd (rotate_once always_true
                 (snd (rotate_once always_true
                         (snd (rotate_once always_true sample_I)))))))
  = sample_I.
Proof.
  apply (rotate_once_four_times always_true always_true always_true
           always_true sample_I); reflexivity.
Defined.

(** ** The default validator *)



(** ** [place_at] as two shifts *)



(** ** [filter_blocks_pos] *)

(** X8.  [filter_blocks_pos] returns exactly the blocks that satisfy
    the predicate; it never returns more blocks than the piece has, and
    the blocks it keeps and the blocks the negated predicate keeps add
    up to all of them.  A predicate that is always true gives every
    block, in order; one that is always false gives the empty list. *)
Theorem filter_blocks_pos_partition (self : Pytromino)
    (fn : coord -> bool) :
  (forall pos : coord,
     In pos (filter_blocks_pos self fn)
     <-> In pos (get_blocks_pos self) /\ fn pos = true)
  /\ (List.length (filter_blocks_pos self fn)
      + List.length (filter_blocks_pos self (fun pos => negb (fn pos)))
      = List.length (get_blocks_pos self))%nat
  /\ filter_blocks_pos self always_true = get_blocks_pos self
  /\ filter_blocks_pos self (fun _ => false) = [].
Proof.
  unfold filter_blocks_pos, get_blocks_pos.
  split; [intros pos; apply filter_In |].
  split; [apply filter_length |].
  split; induction (_blocks_pos self) as [| pos l IH]; simpl; congruence.
Qed.

(** X9.  After an accepted call every block of the piece passes the
    validator of that call: filtering the blocks with it keeps them
    all. *)
Theorem validated_apply_then_filter (fn : coord -> coord)
    (is_rotation : bool) (validator : coord -> bool) (self : Pytromino) :
  fst (validated_apply fn is_rotation validator self) = true ->
  filter_blocks_pos (snd (validated_apply fn is_rotation validator self))
    validator
  = get_blocks_pos (snd (validated_apply fn is_rotation validator self)).
Proof.
  rewrite validated_apply_unfold.
  unfold filter_blocks_pos, get_blocks_pos.
  destruct (forallb validator (map fn (_blocks_pos self))) eqn:Hall; simpl;
    [intros _ | discriminate].
  induction (map fn (_blocks_pos self)) as [| pos l IH]; simpl in *.
  - reflexivity.
  - apply andb_prop in Hall. destruct Hall as [Hpos Hl].
    rewrite Hpos, (IH Hl). reflexivity.
Qed.

(** The T piece placed at [(2, 2)] and shifted right under
    [positive_x]. *)
Lemma validated_apply_then_filter_witness :
  filter_blocks_pos
    (snd (validated_apply (shift_right_fn (int 1)) false positive_x
            (snd (place_at (int 2, int 2) sample_T))))
    positive_x
  = get_blocks_pos
      (snd (validated_apply (shift_right_fn (int 1)) false positive_x
              (snd (place_at (int 2, int 2) sample_T)))).
Proof.
  apply (validated_apply_then_filter (shift_right_fn (int 1)) false
           positive_x (snd (place_at (int 2, int 2) sample_T))).
  vm_compute. reflexivity.
Defined.

(** ** [get_unique_rows] *)

Lemma Qeq_bool_number (a b : number) : Qeq_bool a b = true <-> a = b.
Proof.
  split; [apply number_eq | intros ->; apply Qeq_bool_refl].
Qed.

Lemma set_add_In (x y : number) (s : list number) :
  In x (set_add y s) <-> x = y \/ In x s.
Proof.
  induction s as [| z s IH]; simpl.
  - intuition.
  - destruct (Qeq_bool y z) eqn:E; simpl.
    + apply Qeq_bool_number in E. subst z. intuition.
    + rewrite IH. intuition.
Qed.

Lemma set_add_NoDup (y : number) (s : list number) :
  NoDup s -> NoDup (set_add y s).
Proof.
  induction 1 as [| z s Hz Hs IH]; simpl.
  - constructor; [intros [] | constructor].
  - destruct (Qeq_bool y z) eqn:E.
    + now constructor.
    + constructor; [| exact IH].
      rewrite set_add_In. intros [-> | H]; [| contradiction].
      now rewrite Qeq_bool_refl in E.
Qed.

Lemma set_add_length (y : number) (s : list number) :
  (List.length s <= List.length (set_add y s) <= S (List.length s))%nat.
Proof.
  induction s as [| z s IH]; simpl; [lia |].
  destruct (Qeq_bool y z); simpl; lia.
Qed.

(** The loop of [get_unique_rows], from any set [s]. *)
Lemma rows_loop (blocks : list coord) (s : list number) :
  let rows := fold_left (fun s pos => set_add (snd pos) s) blocks s in
  (NoDup s -> NoDup rows)
  /\ (forall y, In y rows <-> In y s \/ In y (map snd blocks))
  /\ (List.length s <= List.length rows
      <= List.length s + List.length blocks)%nat.
Proof.
  cbv zeta. revert s.
  induction blocks as [| pos blocks IH]; intros s; simpl.
  - repeat split; auto; try lia. intros [H | []]; exact H.
  - destruct (IH (set_add (snd pos) s)) as (Hnd & Hin & Hlen).
    pose proof (set_add_length (snd pos) s) as Hadd.
    repeat split.
    + intros Hs. apply Hnd. now apply set_add_NoDup.
    + rewrite Hin, set_add_In. intuition.
    + rewrite Hin, set_add_In. intuition.
    + lia.
    + lia.
Qed.

(** X10.  [get_unique_rows] lists every row that holds a block, and
    only those, each once; it never lists more rows than there are
    blocks, and it lists at least one row when there is a block. *)
Theorem get_unique_rows_exact (self : Pytromino) :
  NoDup (get_unique_rows self)
  /\ (forall y : number,
        In y (get_unique_rows self)
        <-> exists pos, In pos (get_blocks_pos self) /\ snd pos = y)
  /\ (List.length (get_unique_rows self)
      <= List.length (get_blocks_pos self))%nat
  /\ (get_unique_rows self = [] <-> get_blocks_pos self = []).
Proof.
  unfold get_unique_rows, get_blocks_pos.
  destruct (rows_loop (_blocks_pos self) []) as (Hnd & Hin & Hlen).
  cbv zeta in *. simpl in Hlen.
  split; [apply Hnd; constructor |].
  split.
  - intros y. rewrite Hin, in_map_iff. simpl.
    split.
    + intros [[] | (pos & Hy & Hpos)]. now exists pos.
    + intros (pos & Hpos & Hy). right. now exists pos.
  - split; [lia |].
    split; intros H.
    + destruct (_blocks_pos self) as [| pos l]; [reflexivity |].
      exfalso.
      assert (Hy : In (snd pos)
                      (fold_left (fun s pos => set_add (snd pos) s)
                         (pos :: l) []))
        by (apply Hin; right; left; reflexivity).
      rewrite H in Hy. exact Hy.
    + rewrite H. reflexivity.
Qed.

(** X11.  A shift to the left or to the right, accepted or rejected,
    leaves the set of rows of the piece as it was; after an accepted
    shift down by [n] the rows are the old rows moved by [n]: [y] is a
    row exactly when it is [y0 + n] for a row [y0] of before. *)
Theorem get_unique_rows_shift (self : Pytromino) (n : number)
    (validator : coord -> bool) (y : number) :
  (In y (get_unique_rows
           (snd (validated_apply (shift_left_fn n) false validator self)))
   <-> In y (get_unique_rows self))
  /\ (In y (get_unique_rows
              (snd (validated_apply (shift_right_fn n) false validator self)))
      <-> In y (get_unique_rows self))
  /\ (fst (validated_apply (shift_down_fn n) false validator self) = true ->
      (In y (get_unique_rows
               (snd (validated_apply (shift_down_fn n) false validator self)))
       <-> exists y0 : number, In y0 (get_unique_rows self) /\ y = y0 + n)).
Proof.
  unfold get_unique_rows.
  assert (Hrows : forall (l : list coord) (z : number),
            In z (fold_left (fun s pos => set_add (snd pos) s) l [])
            <-> In z (map snd l)).
  { intros l z. destruct (rows_loop l []) as (_ & Hin & _).
    cbv zeta in Hin. rewrite Hin. simpl. intuition. }
  rewrite !validated_apply_unfold.
  split; [| split].
  - destruct (forallb validator _); simpl; [| reflexivity].
    rewrite !Hrows, map_map. reflexivity.
  - destruct (forallb validator _); simpl; [| reflexivity].
    rewrite !Hrows, map_map. reflexivity.
  - destruct (forallb validator _); simpl; [intros _ | discriminate].
    rewrite Hrows, map_map, in_map_iff. unfold shift_down_fn. cbn [snd].
    split.
    + intros (pos & Hy & Hpos). exists (snd pos). split; [| now symmetry].
      apply Hrows, in_map. exact Hpos.
    + intros (y0 & Hy0 & ->). apply Hrows, in_map_iff in Hy0.
      destruct Hy0 as (pos & <- & Hpos). now exists pos.
Qed.

(** The S piece placed at [(2, 2)] spans the rows 1 and 2; shifted down
    by 3 it spans the rows 4 and 5. *)
Lemma get_unique_rows_shift_witness :
  In (int 2 + int 3)
    (get_unique_rows
       (snd (validated_apply (shift_down_fn (int 3)) false always_true
               (snd (place_at (int 2, int 2) sample_S)))))
  <-> exists y0 : number,
        In y0 (get_unique_rows (snd (place_at (int 2, int 2) sample_S)))
        /\ int 2 + int 3 = y0 + int 3.
Proof.
  apply (proj2 (proj2 (get_unique_rows_shift
                         (snd (place_at (int 2, int 2) sample_S))
                         (int 3) always_true (int 2 + int 3)))).
  reflexivity.
Defined.

(** ** Keeping the blocks apart *)

Lemma coord_eqb_refl (p : coord) : coord_eqb p p = true.
Proof.
  destruct p as [x y]. unfold coord_eqb. simpl.
  now rewrite !Qeq_bool_refl.
Qed.

Lemma coords_nodupb_NoDup (l : list coord) :
  coords_nodupb l = true -> NoDup l.
Proof.
  induction l as [| p l IH]; simpl; [constructor |].
  intros H. apply andb_prop in H. destruct H as [Hp Hl].
  constructor; [| now apply IH].
  intros Hin. apply negb_true_iff in Hp.
  assert (Hex : existsb (coord_eqb p) l = true).
  { apply existsb_exists. exists p. split; [exact Hin |].
    apply coord_eqb_refl. }
  congruence.
Qed.

Lemma NoDup_map_injective (fn : coord -> coord) (l : list coord) :
  (forall p q, fn p = fn q -> p = q) -> NoDup l -> NoDup (map fn l).
Proof.
  intros Hinj. induction 1 as [| p l Hp Hl IH]; simpl; constructor.
  - rewrite in_map_iff. intros (q & Hq & Hin).
    apply Hinj in Hq. now subst q.
  - exact IH.
Qed.

Lemma rotate_block_90_cw_injective (self : Pytromino) (p q : coord) :
  rotate_block_90_cw self p = rotate_block_90_cw self q -> p = q.
Proof.
  unfold rotate_block_90_cw.
  destruct (_center_rot self) as [cx cy], p as [px py], q as [qx qy].
  unfold number in *. cbn [fst snd]. intros H.
  pose proof (f_equal fst H) as Hx. pose proof (f_equal snd H) as Hy.
  cbn [fst snd] in Hx, Hy.
  apply (f_equal2 (@pair Qc Qc)).
  - replace px with (px - cx + cy + cx - cy) by ring.
    rewrite Hy. ring.
  - replace py with (cy + cx - (cy - py + cx)) by ring.
    rewrite Hx. ring.
Qed.

Lemma validated_apply_NoDup (fn : coord -> coord) (is_rotation : bool)
    (validator : coord -> bool) (self : Pytromino) :
  (forall p q, fn p = fn q -> p = q) ->
  NoDup (_blocks_pos self) ->
  NoDup (_blocks_pos (snd (validated_apply fn is_rotation validator self))).
Proof.
  intros Hinj Hnd. rewrite validated_apply_unfold.
  destruct (forallb validator _); simpl; [| exact Hnd].
  now apply NoDup_map_injective.
Qed.

(** X12.  A transform that sends different points to different points
    never makes two blocks of a piece coincide: if the blocks are
    pairwise different before [validated_apply], they are after it,
    whether the call is accepted or not. *)
Theorem validated_apply_keeps_blocks_apart (fn : coord -> coord)
    (is_rotation : bool) (validator : coord -> bool) (self : Pytromino) :
  (forall p q : coord, fn p = fn q -> p = q) ->
  NoDup (get_blocks_pos self) ->
  NoDup (get_blocks_pos
           (snd (validated_apply fn is_rotation validator self))).
Proof. apply validated_apply_NoDup. Qed.

(** The T piece rotated about its centre. *)
Lemma validated_apply_keeps_blocks_apart_witness :
  NoDup (get_blocks_pos
           (snd (validated_apply (rotate_block_90_cw sample_T) true
                   always_true sample_T))).
Proof.
  apply (validated_apply_keeps_blocks_apart (rotate_block_90_cw sample_T)
           true always_true sample_T).
  - apply rotate_block_90_cw_injective.
  - apply coords_nodupb_NoDup. vm_compute. reflexivity.
Defined.

(** * Further properties of the holder *)

(** X16.  The gate alone decides whether [store] works: after [open]
    it returns normally, after [close] it raises, whatever the holder
    went through before.  [store] itself never moves the gate, and
    [open] and [close] can be repeated without effect. *)
Theorem holder_gate_control {Item : Type} (self : Holder Item)
    (item : option Item) :
  fst (store item (snd (open self))) = Ok tt
  /\ fst (store item (snd (close self)))
     = Raise (AssertionError "holder is closed")
  /\ is_open (snd (store item self)) = is_open self
  /\ snd (open (snd (open self))) = snd (open self)
  /\ snd (close (snd (close self))) = snd (close self)
  /\ snd (open (snd (close self))) = snd (open self)
  /\ snd (close (snd (open self))) = snd (close self).
Proof.
  unfold store, is_open, open, close. simpl.
  repeat split.
  destruct (_can_store self) eqn:E; simpl; auto.
Qed.

Lemma holder_step_item {Item : Type} (c : holder_call Item)
    (self : Holder Item) :
  get_item (holder_step c self) = get_item self
  \/ c = call_store (get_item (holder_step c self)).
Proof.
  destruct c as [item | |]; simpl; auto.
  unfold store. destruct (_can_store self); simpl; auto.
Qed.

(** X17.  A holder never holds anything but what it was given: after
    any run of calls the item it holds is the one it held at the start
    or the argument of one of the [store] calls of the run.  A run
    without any [store] leaves the item alone. *)
Theorem holder_run_item {Item : Type} (calls : list (holder_call Item))
    (self : Holder Item) :
  (get_item (holder_run calls self) = get_item self
   \/ In (call_store (get_item (holder_run calls self))) calls)
  /\ ((forall item, ~ In (call_store item) calls) ->
      get_item (holder_run calls self) = get_item self).
Proof.
  assert (H : get_item (holder_run calls self) = get_item self
              \/ In (call_store (get_item (holder_run calls self))) calls).
  { unfold holder_run. revert self.
    induction calls as [| c calls IH]; intros self; simpl; [now left |].
    destruct (IH (holder_step c self)) as [E | Hin]; [| now right; right].
    rewrite E.
    destruct (holder_step_item c self) as [E' | E']; [now left |].
    right. left. now rewrite <- E'. }
  split; [exact H |].
  intros Hno. destruct H as [E | Hin]; [exact E |].
  now apply Hno in Hin.
Qed.

(** A holder that stores 1, is closed, refuses 2 and is opened again
    holds 1. *)
Lemma holder_run_item_witness :
  get_item
    (holder_run [call_open; call_close; call_open]
       (snd (store (Some 1%Z) Holder_init)))
  = get_item (snd (store (Some 1%Z) Holder_init)).
Proof.
  apply (proj2 (holder_run_item [call_open; call_close; call_open]
                  (snd (store (Some 1%Z) Holder_init)))).
  intros item [H | [H | [H | []]]]; discriminate H.
Defined.

(** X18.  After any run of calls the gate is as the last [open] or
    [close] of the run left it, and as it was at the start when the run
    has neither. *)
Theorem holder_run_gate {Item : Type} (calls : list (holder_call Item))
    (c : holder_call Item) (self : Holder Item) :
  is_open (holder_run (calls ++ [c]) self)
  = match c with
    | call_open => true
    | call_close => false
    | call_store _ => is_open (holder_run calls self)
    end
  /\ ((forall c', In c' calls -> exists item, c' = call_store item) ->
      is_open (holder_run calls self) = is_open self).
Proof.
  split.
  - unfold holder_run. rewrite fold_left_app. simpl.
    destruct c as [item | |]; simpl; auto.
    unfold store, is_open.
    destruct (_can_store (fold_left _ calls self)) eqn:E; simpl; auto.
  - unfold holder_run. revert self.
    induction calls as [| c' calls IH]; intros self Hall; simpl; auto.
    rewrite IH by (intros c0 Hc0; apply Hall; now right).
    destruct (Hall c' (or_introl eq_refl)) as [item ->]. simpl.
    unfold store, is_open. destruct (_can_store self) eqn:E; simpl; auto.
Qed.

(** * Properties under Python's arithmetic *)

(** ** Calls under the default validator *)

(** Under the default validator the loop collects the images of the
    blocks, unless [fn] raises. *)
Lemma py_apply_loop_images (fn : Py.coord -> Py.outcome Py.coord)
    (todo final_pos images : list Py.coord) :
  Forall2 (fun c c' => fn c = Py.Return c') todo images ->
  Py.apply_loop fn Py.always_true todo final_pos
  = Py.Return (Some (final_pos ++ images)).
Proof.
  intros H. revert final_pos.
  induction H as [| c c' todo images Hc _ IH]; intros final_pos; simpl.
  - now rewrite app_nil_r.
  - rewrite Hc. simpl. rewrite IH, <- app_assoc. reflexivity.
Qed.

Lemma py_apply_loop_returns (fn : Py.coord -> Py.outcome Py.coord)
    (todo final_pos : list Py.coord) (r : option (list Py.coord)) :
  Py.apply_loop fn Py.always_true todo final_pos = Py.Return r ->
  exists images,
    Forall2 (fun c c' => fn c = Py.Return c') todo images
    /\ r = Some (final_pos ++ images).
Proof.
  revert final_pos.
  induction todo as [| c todo IH]; intros final_pos; simpl.
  - intros H. injection H as <-. exists []. split; [constructor |].
    now rewrite app_nil_r.
  - destruct (fn c) as [c' |] eqn:Hc; [| discriminate]. simpl.
    intros H. destruct (IH _ H) as (images & Himages & ->).
    exists (c' :: images). split; [now constructor |].
    now rewrite <- app_assoc.
Qed.

(** A call under the default validator that is not flagged as a
    rotation returns [True] exactly when [fn] raises on no block and
    not on the centre, and then stores the images. *)
Lemma py_validated_apply_default_images
    (fn : Py.coord -> Py.outcome Py.coord) (self : Py.Pytromino)
    (images : list Py.coord) (center : Py.coord) :
  Forall2 (fun c c' => fn c = Py.Return c') (Py._blocks_pos self) images ->
  fn (Py._center_rot self) = Py.Return center ->
  Py.validated_apply fn false Py.always_true self
  = (Py.Return true,
     {| Py._blocks_pos := images;
        Py._color := Py._color self;
        Py._type := Py._type self;
        Py._center_rot := center;
        Py._placed := Py._placed self |}).
Proof.
  intros Himages Hcenter. unfold Py.validated_apply.
  rewrite (py_apply_loop_images fn _ [] images Himages), Hcenter.
  reflexivity.
Qed.

Lemma py_validated_apply_default_accepted
    (fn : Py.coord -> Py.outcome Py.coord) (self : Py.Pytromino) :
  fst (Py.validated_apply fn false Py.always_true self) = Py.Return true ->
  exists images center,
    Forall2 (fun c c' => fn c = Py.Return c') (Py._blocks_pos self) images
    /\ fn (Py._center_rot self) = Py.Return center
    /\ snd (Py.validated_apply fn false Py.always_true self)
       = {| Py._blocks_pos := images;
            Py._color := Py._color self;
            Py._type := Py._type self;
            Py._center_rot := center;
            Py._placed := Py._placed self |}.
Proof.
  unfold Py.validated_apply.
  destruct (Py.apply_loop fn Py.always_true (Py._blocks_pos self) [])
    as [r |] eqn:Hloop; [| discriminate].
  destruct (py_apply_loop_returns fn _ [] r Hloop) as (images & Himages & ->).
  simpl.
  destruct (fn (Py._center_rot self)) as [center |] eqn:Hcenter;
    [| discriminate].
  intros _. exists images, center. repeat split; assumption.
Qed.

(** ** A shift to the right and back *)

Lemma py_shift_right_left_round_trip (n : Py.num) (pos pos' : Py.coord) :
  Py.shift_right_fn n pos = Py.Return pos' ->
  Py.shift_left_fn n pos' = Py.Return pos ->
  Py.round_trip n (fst pos).
Proof.
  destruct pos as [x y], pos' as [x' y'].
  unfold Py.shift_right_fn, Py.shift_left_fn, Py.bind. simpl.
  destruct (Py.add x n) as [x1 |] eqn:Hadd; [| discriminate].
  intros H. injection H as <- <-.
  destruct (Py.sub x1 n) as [x2 |] eqn:Hsub; [| discriminate].
  intros H. injection H as ->.
  exists x1. split; assumption.
Qed.

Lemma py_round_trip_shift_right_left (n : Py.num) (pos : Py.coord) :
  Py.round_trip n (fst pos) ->
  exists pos',
    Py.shift_right_fn n pos = Py.Return pos'
    /\ Py.shift_left_fn n pos' = Py.Return pos.
Proof.
  destruct pos as [x y]. intros (x1 & Hadd & Hsub). simpl in Hadd.
  exists (x1, y).
  unfold Py.shift_right_fn, Py.shift_left_fn, Py.bind. simpl.
  rewrite Hadd, Hsub. split; reflexivity.
Qed.

Lemma py_round_trip_blocks (n : Py.num) (blocks : list Py.coord) :
  Forall (fun pos => Py.round_trip n (fst pos)) blocks ->
  exists images,
    Forall2 (fun c c' => Py.shift_right_fn n c = Py.Return c') blocks images
    /\ Forall2 (fun c c' => Py.shift_left_fn n c = Py.Return c') images blocks.
Proof.
  induction 1 as [| pos blocks Hpos _ (images & Hr & Hl)].
  - exists []. split; constructor.
  - destruct (py_round_trip_shift_right_left n pos Hpos) as (pos' & H1 & H2).
    exists (pos' :: images). split; constructor; assumption.
Qed.

Lemma py_blocks_round_trip (n : Py.num) (blocks images : list Py.coord) :
  Forall2 (fun c c' => Py.shift_right_fn n c = Py.Return c') blocks images ->
  Forall2 (fun c c' => Py.shift_left_fn n c = Py.Return c') images blocks ->
  Forall (fun pos => Py.round_trip n (fst pos)) blocks.
Proof.
  induction 1 as [| pos pos' blocks images Hr _ IH]; intros Hl.
  - constructor.
  - inversion Hl as [| ? ? ? ? Hl1 Hl2]; subst.
    constructor; [| now apply IH].
    exact (py_shift_right_left_round_trip n pos pos' Hr Hl1).
Qed.

(** On two ints [(x + n) - n] is [x]. *)
Lemma py_round_trip_int (n x : Z) : Py.round_trip (Py.Int n) (Py.Int x).
Proof.
  exists (Py.Int (x + n)). split; [reflexivity |].
  simpl. do 2 f_equal. lia.
Qed.

(** C8.  Shifting a piece [n] steps to the right and then
    [n] steps to the left, both under the default validator, succeeds
    twice and gives back the blocks and the centre of rotation exactly
    when [(x + n) - n] evaluates to [x] again for the first coordinate
    [x] of the centre and of every block.  That is so for every [int]
    coordinate and every [n]: a piece whose first coordinates are all
    ints is given back as it was. *)
Theorem py_shift_right_then_left (self : Py.Pytromino) (n : Z) :
  let right :=
    Py.validated_apply (Py.shift_right_fn (Py.Int n)) false Py.always_true
      self in
  let left :=
    Py.validated_apply (Py.shift_left_fn (Py.Int n)) false Py.always_true
      (snd right) in
  (fst right = Py.Return true
   /\ fst left = Py.Return true
   /\ Py._blocks_pos (snd left) = Py._blocks_pos self
   /\ Py._center_rot (snd left) = Py._center_rot self
   <-> Forall (fun pos => Py.round_trip (Py.Int n) (fst pos))
         (Py._center_rot self :: Py._blocks_pos self))
  /\ ((forall pos, In pos (Py._center_rot self :: Py._blocks_pos self) ->
       exists x : Z, fst pos = Py.Int x) ->
      fst right = Py.Return true
      /\ fst left = Py.Return true
      /\ Py._blocks_pos (snd left) = Py._blocks_pos self
      /\ Py._center_rot (snd left) = Py._center_rot self
      /\ snd left = self).
Proof.
  cbv zeta.
  assert (Hback :
    Forall (fun pos => Py.round_trip (Py.Int n) (fst pos))
      (Py._center_rot self :: Py._blocks_pos self) ->
    fst (Py.validated_apply (Py.shift_right_fn (Py.Int n)) false
           Py.always_true self) = Py.Return true
    /\ Py.validated_apply (Py.shift_left_fn (Py.Int n)) false Py.always_true
         (snd (Py.validated_apply (Py.shift_right_fn (Py.Int n)) false
                 Py.always_true self))
       = (Py.Return true, self)).
  { intros Hall. inversion Hall as [| ? ? Hcenter Hblocks]; subst.
    destruct (py_round_trip_shift_right_left _ _ Hcenter)
      as (center' & Hc1 & Hc2).
    destruct (py_round_trip_blocks _ _ Hblocks) as (images & Hb1 & Hb2).
    rewrite (py_validated_apply_default_images _ self images center' Hb1 Hc1).
    cbn [fst snd]. split; [reflexivity |].
    rewrite (py_validated_apply_default_images
               (Py.shift_left_fn (Py.Int n))
               {| Py._blocks_pos := images;
                  Py._color := Py._color self;
                  Py._type := Py._type self;
                  Py._center_rot := center';
                  Py._placed := Py._placed self |}
               (Py._blocks_pos self) (Py._center_rot self) Hb2 Hc2).
    destruct self; reflexivity. }
  split; [split |].
  - intros (Hright & Hleft & Hblocks & Hcenter).
    destruct (py_validated_apply_default_accepted _ self Hright)
      as (images & center' & Hb1 & Hc1 & Hstate).
    rewrite Hstate in Hleft, Hblocks, Hcenter.
    destruct (py_validated_apply_default_accepted _ _ Hleft)
      as (images' & center'' & Hb2 & Hc2 & Hstate').
    rewrite Hstate' in Hblocks, Hcenter. cbn in Hblocks, Hcenter, Hb2, Hc2.
    subst images' center''.
    constructor.
    + exact (py_shift_right_left_round_trip _ _ _ Hc1 Hc2).
    + exact (py_blocks_round_trip _ _ _ Hb1 Hb2).
  - intros Hall. destruct (Hback Hall) as [Hright Hleft].
    rewrite Hleft. repeat split. exact Hright.
  - intros Hint.
    assert (Hall : Forall (fun pos => Py.round_trip (Py.Int n) (fst pos))
                     (Py._center_rot self :: Py._blocks_pos self)).
    { apply Forall_forall. intros pos Hpos.
      destruct (Hint pos Hpos) as [x ->]. apply py_round_trip_int. }
    destruct (Hback Hall) as [Hright Hleft].
    rewrite Hleft. repeat split. exact Hright.
Qed.

(** The I piece, whose centre is [(0.5, 0.5)], shifted by 3: the
    additions are exact.  The T piece, whose coordinates are ints,
    shifted by [2^52]. *)
Lemma py_shift_right_then_left_witness :
  (let right :=
     Py.validated_apply (Py.shift_right_fn (Py.Int 3)) false Py.always_true
       py_sample_I in
   let left :=
     Py.validated_apply (Py.shift_left_fn (Py.Int 3)) false Py.always_true
       (snd right) in
   fst right = Py.Return true
   /\ fst left = Py.Return true
   /\ Py._blocks_pos (snd left) = Py._blocks_pos py_sample_I
   /\ Py._center_rot (snd left) = Py._center_rot py_sample_I)
  /\ (let right :=
        Py.validated_apply (Py.shift_right_fn (Py.Int (2 ^ 52))) false
          Py.always_true py_sample_T in
      let left :=
        Py.validated_apply (Py.shift_left_fn (Py.Int (2 ^ 52))) false
          Py.always_true (snd right) in
      fst right = Py.Return true
      /\ fst left = Py.Return true
      /\ Py._blocks_pos (snd left) = Py._blocks_pos py_sample_T
      /\ Py._center_rot (snd left) = Py._center_rot py_sample_T
      /\ snd left = py_sample_T).
Proof.
  split.
  - apply (proj1 (py_shift_right_then_left py_sample_I 3)).
    repeat constructor;
      (eexists; split; vm_compute; reflexivity).
  - apply (proj2 (py_shift_right_then_left py_sample_T (2 ^ 52))).
    intros pos Hpos. simpl in Hpos.
    repeat (destruct Hpos as [<- | Hpos]; [eexists; reflexivity |]).
    destruct Hpos.
Defined.

(** The I piece shifted by [2^52]: its blocks are ints and come back,
    but [0.5 + 2^52] is rounded to [2^52], and the centre comes back
    as [(0.0, 0.5)]. *)
Lemma py_shift_right_then_left_counterexample :
  let right :=
    Py.validated_apply (Py.shift_right_fn (Py.Int (2 ^ 52))) false
      Py.always_true py_sample_I in
  let left :=
    Py.validated_apply (Py.shift_left_fn (Py.Int (2 ^ 52))) false
      Py.always_true (snd right) in
  fst right = Py.Return true
  /\ fst left = Py.Return true
  /\ Py._blocks_pos (snd left) = Py._blocks_pos py_sample_I
  /\ Py._center_rot (snd left) = (Py.Float 0%float, Py.Float 0.5%float)
  /\ Py._center_rot (snd left) <> Py._center_rot py_sample_I.
Proof.
  cbv zeta.
  assert (Hcenter :
    Py._center_rot
      (snd (Py.validated_apply (Py.shift_left_fn (Py.Int (2 ^ 52))) false
              Py.always_true
              (snd (Py.validated_apply (Py.shift_right_fn (Py.Int (2 ^ 52)))
                      false Py.always_true py_sample_I))))
    = (Py.Float 0%float, Py.Float 0.5%float))
    by (vm_compute; reflexivity).
  split; [vm_compute; reflexivity |].
  split; [vm_compute; reflexivity |].
  split; [vm_compute; reflexivity |].
  split; [exact Hcenter |].
  rewrite Hcenter. intros H.
  assert (Hzero :=
    f_equal (fun c : Py.coord =>
               match fst c with
               | Py.Float f => is_zero f
               | Py.Int _ => false
               end) H).
  vm_compute in Hzero. discriminate Hzero.
Qed.

(** ** Pieces whose coordinates are ints *)

(** The loop under any validator, when [fn] raises on no block. *)
Lemma py_apply_loop_forallb (fn : Py.coord -> Py.outcome Py.coord)
    (validator : Py.coord -> bool) (todo final_pos images : list Py.coord) :
  Forall2 (fun c c' => fn c = Py.Return c') todo images ->
  Py.apply_loop fn validator todo final_pos
  = if forallb validator images
    then Py.Return (Some (final_pos ++ images))
    else Py.Return None.
Proof.
  intros H. revert final_pos.
  induction H as [| c c' todo images Hc _ IH]; intros final_pos; simpl.
  - now rewrite app_nil_r.
  - rewrite Hc. destruct (validator c'); simpl; [| reflexivity].
    rewrite IH, <- app_assoc. reflexivity.
Qed.

Lemma py_ints_images (fn : Py.coord -> Py.outcome Py.coord)
    (g : Z * Z -> Z * Z) (blocks : list (Z * Z)) :
  (forall q, fn (Py.int_coord q) = Py.Return (Py.int_coord (g q))) ->
  Forall2 (fun c c' => fn c = Py.Return c') (Py.ints blocks)
    (Py.ints (map g blocks)).
Proof.
  intros Hfn. induction blocks as [| q blocks IH]; simpl; constructor.
  - apply Hfn.
  - exact IH.
Qed.

(** A transform that sends int coordinates to int coordinates, applied
    to a piece whose coordinates are ints: the call does not raise, and
    it stores int coordinates when it is accepted. *)
Lemma py_validated_apply_int (fn : Py.coord -> Py.outcome Py.coord)
    (g : Z * Z -> Z * Z) (is_rotation : bool)
    (validator : Py.coord -> bool) (blocks : list (Z * Z)) (color : rgb)
    (type : Types.t) (center : Z * Z) (placed : bool) :
  (forall q, fn (Py.int_coord q) = Py.Return (Py.int_coord (g q))) ->
  Py.validated_apply fn is_rotation validator
    (Py.mkPytromino (Py.ints blocks) color type (Py.int_coord center) placed)
  = if forallb validator (Py.ints (map g blocks))
    then (Py.Return true,
          Py.mkPytromino (Py.ints (map g blocks)) color type
            (Py.int_coord (if is_rotation then center else g center))
            placed)
    else (Py.Return false,
          Py.mkPytromino (Py.ints blocks) color type (Py.int_coord center)
            placed).
Proof.
  intros Hfn. unfold Py.validated_apply. cbn [Py._blocks_pos].
  rewrite (py_apply_loop_forallb fn validator _ [] _
             (py_ints_images fn g blocks Hfn)).
  destruct (forallb validator (Py.ints (map g blocks))); [| reflexivity].
  destruct is_rotation; cbn [negb Py._center_rot app]; [reflexivity |].
  rewrite Hfn. reflexivity.
Qed.

Lemma py_forallb_always_true (l : list Py.coord) :
  forallb Py.always_true l = true.
Proof. induction l; simpl; auto. Qed.

(** The four transforms of the game on int coordinates. *)
Lemma py_shift_down_fn_int (n : Z) (q : Z * Z) :
  Py.shift_down_fn (Py.Int n) (Py.int_coord q)
  = Py.Return (Py.int_coord (fst q, snd q + n)%Z).
Proof. reflexivity. Qed.

Lemma py_shift_left_fn_int (n : Z) (q : Z * Z) :
  Py.shift_left_fn (Py.Int n) (Py.int_coord q)
  = Py.Return (Py.int_coord (fst q - n, snd q)%Z).
Proof. reflexivity. Qed.

Lemma py_shift_right_fn_int (n : Z) (q : Z * Z) :
  Py.shift_right_fn (Py.Int n) (Py.int_coord q)
  = Py.Return (Py.int_coord (fst q + n, snd q)%Z).
Proof. reflexivity. Qed.

Lemma py_rotate_block_90_cw_int (self : Py.Pytromino) (center q : Z * Z) :
  Py._center_rot self = Py.int_coord center ->
  Py.rotate_block_90_cw self (Py.int_coord q)
  = Py.Return
      (Py.int_coord (snd center - snd q + fst center,
                     fst q - fst center + snd center)%Z).
Proof.
  intros Hc. unfold Py.rotate_block_90_cw. rewrite Hc. reflexivity.
Qed.

Lemma py_translate_int (a b : Z) (q : Z * Z) :
  (fun pos : Py.coord =>
     Py.bind (Py.add (fst pos) (fst (Py.Int a, Py.Int b)))
       (fun x =>
          Py.bind (Py.add (snd pos) (snd (Py.Int a, Py.Int b)))
            (fun y => Py.Return (x, y))))
    (Py.int_coord q)
  = Py.Return (Py.int_coord (fst q + a, snd q + b)%Z).
Proof. reflexivity. Qed.

Lemma py_place_at_int (a b : Z) (blocks : list (Z * Z)) (color : rgb)
    (type : Types.t) (center : Z * Z) (placed : bool) :
  Py.place_at (Py.Int a, Py.Int b)
    (Py.mkPytromino (Py.ints blocks) color type (Py.int_coord center) placed)
  = if placed
    then (Py.Return tt,
          Py.mkPytromino (Py.ints blocks) color type (Py.int_coord center)
            true)
    else (Py.Return tt,
          Py.mkPytromino
            (Py.ints (map (fun q => (fst q + a, snd q + b)%Z) blocks))
            color type
            (Py.int_coord (fst center + a, snd center + b)%Z) true).
Proof.
  unfold Py.place_at. cbn [Py._placed].
  destruct placed; cbn [negb]; [reflexivity |].
  rewrite (py_validated_apply_int _ (fun q => (fst q + a, snd q + b)%Z)
             false Py.always_true blocks color type center false
             (py_translate_int a b)).
  rewrite py_forallb_always_true. reflexivity.
Qed.

Lemma py_validated_apply_default_int (fn : Py.coord -> Py.outcome Py.coord)
    (g : Z * Z -> Z * Z) (blocks : list (Z * Z)) (color : rgb)
    (type : Types.t) (center : Z * Z) (placed : bool) :
  (forall q, fn (Py.int_coord q) = Py.Return (Py.int_coord (g q))) ->
  Py.validated_apply fn false Py.always_true
    (Py.mkPytromino (Py.ints blocks) color type (Py.int_coord center) placed)
  = (Py.Return true,
     Py.mkPytromino (Py.ints (map g blocks)) color type
       (Py.int_coord (g center)) placed).
Proof.
  intros Hfn.
  rewrite (py_validated_apply_int fn g false Py.always_true _ _ _ _ _ Hfn).
  now rewrite py_forallb_always_true.
Qed.

Lemma py_int_piece_congr (blocks blocks' : list (Z * Z)) (color : rgb)
    (type : Types.t) (center center' : Z * Z) (placed : bool) :
  blocks = blocks' ->
  center = center' ->
  Py.mkPytromino (Py.ints blocks) color type (Py.int_coord center) placed
  = Py.mkPytromino (Py.ints blocks') color type (Py.int_coord center')
      placed.
Proof. now intros -> ->. Qed.

Ltac int_pairs :=
  let q := fresh "q" in
  intros q; destruct q; cbn [fst snd]; f_equal; lia.

(** X6.  On a piece whose coordinates are ints, shifts by ints under
    the default validator add up and commute: two shifts down (right,
    left) by [m] and [n] are one shift by [m + n], a shift left by [n]
    is a shift right by [- n], a shift down and a shift right can be
    swapped, and a shift left followed by the same shift right gives
    back the piece. *)
Theorem py_shifts_compose (blocks : list (Z * Z)) (color : rgb)
    (type : Types.t) (center : Z * Z) (placed : bool) (m n : Z) :
  let self :=
    Py.mkPytromino (Py.ints blocks) color type (Py.int_coord center) placed in
  let down k p :=
    snd (Py.validated_apply (Py.shift_down_fn (Py.Int k)) false
           Py.always_true p) in
  let left k p :=
    snd (Py.validated_apply (Py.shift_left_fn (Py.Int k)) false
           Py.always_true p) in
  let right k p :=
    snd (Py.validated_apply (Py.shift_right_fn (Py.Int k)) false
           Py.always_true p) in
  down n (down m self) = down (m + n)%Z self
  /\ right n (right m self) = right (m + n)%Z self
  /\ left n (left m self) = left (m + n)%Z self
  /\ left n self = right (- n)%Z self
  /\ down n (right m self) = right m (down n self)
  /\ right n (left n self) = self.
Proof.
  cbv beta zeta.
  repeat
    (first
      [ rewrite (py_validated_apply_default_int _ _ _ _ _ _ _
                   (py_shift_down_fn_int _))
      | rewrite (py_validated_apply_default_int _ _ _ _ _ _ _
                   (py_shift_left_fn_int _))
      | rewrite (py_validated_apply_default_int _ _ _ _ _ _ _
                   (py_shift_right_fn_int _)) ];
     cbn [snd]).
  rewrite !map_map.
  repeat split;
    try (apply py_int_piece_congr;
         [ apply map_ext; int_pairs
         | destruct center; cbn [fst snd]; f_equal; lia ]).
  apply py_int_piece_congr.
  - rewrite <- (map_id blocks) at 2. apply map_ext. int_pairs.
  - destruct center; cbn [fst snd]; f_equal; lia.
Qed.

(** X5.  About a centre with int coordinates a quarter turn of a point
    with int coordinates is computed exactly: it does not raise, the
    image has int coordinates, the images of two points are as far
    apart as the points, every point stays as far from the centre as
    it was, and two different points have different images. *)
Theorem py_rotate_block_90_cw_int_isometry (self : Py.Pytromino)
    (center p q : Z * Z) :
  Py._center_rot self = Py.int_coord center ->
  exists p' q' : Z * Z,
    Py.rotate_block_90_cw self (Py.int_coord p) = Py.Return (Py.int_coord p')
    /\ Py.rotate_block_90_cw self (Py.int_coord q)
       = Py.Return (Py.int_coord q')
    /\ ((fst p' - fst q') * (fst p' - fst q')
        + (snd p' - snd q') * (snd p' - snd q')
        = (fst p - fst q) * (fst p - fst q)
          + (snd p - snd q) * (snd p - snd q))%Z
    /\ ((fst p' - fst center) * (fst p' - fst center)
        + (snd p' - snd center) * (snd p' - snd center)
        = (fst p - fst center) * (fst p - fst center)
          + (snd p - snd center) * (snd p - snd center))%Z
    /\ (p' = q' -> p = q).
Proof.
  intros Hc.
  rewrite !(py_rotate_block_90_cw_int self center _ Hc).
  eexists. eexists. split; [reflexivity |]. split; [reflexivity |].
  destruct center as [cx cy], p as [px py], q as [qx qy]. cbn [fst snd].
  split; [ring |]. split; [ring |].
  intros H. injection H as Hx Hy. f_equal; lia.
Qed.

(** The T piece turns about its reference block. *)
Lemma py_rotate_block_90_cw_int_isometry_witness :
  exists p' q' : Z * Z,
    Py.rotate_block_90_cw py_sample_T (Py.int_coord (-1, 0)%Z)
    = Py.Return (Py.int_coord p')
    /\ Py.rotate_block_90_cw py_sample_T (Py.int_coord (1, 0)%Z)
       = Py.Return (Py.int_coord q')
    /\ ((fst p' - fst q') * (fst p' - fst q')
        + (snd p' - snd q') * (snd p' - snd q')
        = (-1 - 1) * (-1 - 1) + (0 - 0) * (0 - 0))%Z
    /\ ((fst p' - 0) * (fst p' - 0) + (snd p' - 0) * (snd p' - 0)
        = (-1 - 0) * (-1 - 0) + (0 - 0) * (0 - 0))%Z
    /\ (p' = q' -> (-1, 0)%Z = (1, 0)%Z).
Proof.
  apply (py_rotate_block_90_cw_int_isometry py_sample_T (0, 0)%Z
           (-1, 0)%Z (1, 0)%Z).
  reflexivity.
Defined.

(** ** Pieces in play *)

Lemma NoDup_map_one_to_one {A B : Type} (f : A -> B) (l : list A) :
  (forall a b, f a = f b -> a = b) -> NoDup l -> NoDup (map f l).
Proof.
  intros Hinj. induction 1 as [| a l Ha Hl IH]; simpl; constructor.
  - rewrite in_map_iff. intros (b & Hb & Hin).
    apply Hinj in Hb. now subst b.
  - exact IH.
Qed.

Ltac one_to_one :=
  let a := fresh "a" in
  let b := fresh "b" in
  let H := fresh "H" in
  intros a b H; destruct a, b; cbn [fst snd] in H;
  injection H; intros; f_equal; lia.

(** The invariant of a piece in play: its coordinates are ints, and
    its blocks are four different cells. *)
Lemma py_played_invariant (Color_value : Color.t -> rgb)
    (p : Py.Pytromino) :
  Py.played Color_value p ->
  exists (blocks : list (Z * Z)) (center : Z * Z),
    p = Py.mkPytromino (Py.ints blocks) (Py._color p) (Py._type p)
          (Py.int_coord center) (Py._placed p)
    /\ NoDup blocks
    /\ List.length blocks = 4%nat.
Proof.
  induction 1 as [t p HI HO Hp | n v p _ IH | n v p _ IH | n v p _ IH
                  | v p _ IH | a b p _ IH].
  - destruct t; try contradiction; unfold Py.pytromino_factory in Hp;
      injection Hp as <-;
      match goal with
      | Ht : ?t <> Types.I |- _ => exists (table_offsets t)
      end;
      exists (0, 0)%Z; (split; [reflexivity |]);
      (split; [| reflexivity]);
      repeat constructor; cbn; intuition discriminate.
  - destruct IH as (blocks & center & Hp & Hnd & Hlen). rewrite Hp.
    rewrite (py_validated_apply_int _ _ false v _ _ _ _ _
               (py_shift_down_fn_int n)).
    destruct (forallb v _); cbn [snd Py._color Py._type Py._placed].
    + eexists. eexists. split; [reflexivity |].
      split; [apply NoDup_map_one_to_one; [one_to_one | exact Hnd] |].
      now rewrite length_map.
    + exists blocks, center. auto.
  - destruct IH as (blocks & center & Hp & Hnd & Hlen). rewrite Hp.
    rewrite (py_validated_apply_int _ _ false v _ _ _ _ _
               (py_shift_left_fn_int n)).
    destruct (forallb v _); cbn [snd Py._color Py._type Py._placed].
    + eexists. eexists. split; [reflexivity |].
      split; [apply NoDup_map_one_to_one; [one_to_one | exact Hnd] |].
      now rewrite length_map.
    + exists blocks, center. auto.
  - destruct IH as (blocks & center & Hp & Hnd & Hlen). rewrite Hp.
    rewrite (py_validated_apply_int _ _ false v _ _ _ _ _
               (py_shift_right_fn_int n)).
    destruct (forallb v _); cbn [snd Py._color Py._type Py._placed].
    + eexists. eexists. split; [reflexivity |].
      split; [apply NoDup_map_one_to_one; [one_to_one | exact Hnd] |].
      now rewrite length_map.
    + exists blocks, center. auto.
  - destruct IH as (blocks & center & Hp & Hnd & Hlen). rewrite Hp.
    unfold Py.rotate_once.
    rewrite (py_validated_apply_int _ _ true v _ _ _ _ _
               (fun q =>
                  py_rotate_block_90_cw_int
                    (Py.mkPytromino (Py.ints blocks) (Py._color p)
                       (Py._type p) (Py.int_coord center) (Py._placed p))
                    center q eq_refl)).
    destruct (forallb v _); cbn [snd Py._color Py._type Py._placed].
    + eexists. eexists. split; [reflexivity |].
      split; [apply NoDup_map_one_to_one; [one_to_one | exact Hnd] |].
      now rewrite length_map.
    + exists blocks, center. auto.
  - destruct IH as (blocks & center & Hp & Hnd & Hlen). rewrite Hp.
    rewrite py_place_at_int.
    destruct (Py._placed p); cbn [snd Py._color Py._type Py._placed].
    + exists blocks, center. auto.
    + eexists. eexists. split; [reflexivity |].
      split; [apply NoDup_map_one_to_one; [one_to_one | exact Hnd] |].
      now rewrite length_map.
Qed.

Lemma py_int_coord_one_to_one (p q : Z * Z) :
  Py.int_coord p = Py.int_coord q -> p = q.
Proof.
  destruct p, q. unfold Py.int_coord. cbn [fst snd].
  intros H. injection H as -> ->. reflexivity.
Qed.

(** X13.  A piece of one of the five shapes L, S, T, J, Z in play
    always covers four different cells: the pieces of the factory do,
    and shifts by ints, rotations about the centre of the piece and
    [place_at] with int coordinates keep it so under any validators. *)
Theorem py_played_four_different_cells (Color_value : Color.t -> rgb)
    (p : Py.Pytromino) :
  Py.played Color_value p ->
  NoDup (Py._blocks_pos p) /\ List.length (Py._blocks_pos p) = 4%nat.
Proof.
  intros Hplayed.
  destruct (py_played_invariant Color_value p Hplayed)
    as (blocks & center & Hp & Hnd & Hlen).
  rewrite Hp. cbn [Py._blocks_pos]. unfold Py.ints. split.
  - apply NoDup_map_one_to_one; [| exact Hnd].
    exact py_int_coord_one_to_one.
  - now rewrite length_map.
Qed.

(** The T piece placed at [(4, 0)], rotated and shifted down by
    [2^53]. *)
Lemma py_played_four_different_cells_witness :
  let p :=
    snd (Py.validated_apply (Py.shift_down_fn (Py.Int (2 ^ 53))) false
           Py.always_true
           (snd (Py.rotate_once Py.always_true
                   (snd (Py.place_at (Py.Int 4, Py.Int 0) py_sample_T))))) in
  NoDup (Py._blocks_pos p) /\ List.length (Py._blocks_pos p) = 4%nat.
Proof.
  cbv zeta.
  apply (py_played_four_different_cells sample_palette).
  apply Py.played_shift_down, Py.played_rotate, Py.played_place_at.
  apply (Py.played_factory sample_palette Types.T);
    [discriminate | discriminate | reflexivity].
Defined.

(** X14.  A piece of one of the five shapes L, S, T, J, Z in play has
    int coordinates only, for its blocks and for its centre: no float
    appears.  No further shift by an int, rotation or [place_at] with
    int coordinates raises [OverflowError] on it. *)
Theorem py_played_int_coordinates (Color_value : Color.t -> rgb)
    (p : Py.Pytromino) :
  Py.played Color_value p ->
  Forall (fun pos => exists x y : Z, pos = (Py.Int x, Py.Int y))
    (Py._center_rot p :: Py._blocks_pos p)
  /\ (forall (n : Z) (validator : Py.coord -> bool),
        fst (Py.validated_apply (Py.shift_down_fn (Py.Int n)) false
               validator p) <> Py.OverflowError
        /\ fst (Py.validated_apply (Py.shift_left_fn (Py.Int n)) false
                  validator p) <> Py.OverflowError
        /\ fst (Py.validated_apply (Py.shift_right_fn (Py.Int n)) false
                  validator p) <> Py.OverflowError
        /\ fst (Py.rotate_once validator p) <> Py.OverflowError)
  /\ (forall a b : Z,
        fst (Py.place_at (Py.Int a, Py.Int b) p) <> Py.OverflowError).
Proof.
  intros Hplayed.
  destruct (py_played_invariant Color_value p Hplayed)
    as (blocks & center & Hp & _ & _).
  rewrite Hp. cbn [Py._blocks_pos Py._center_rot]. split; [| split].
  - constructor.
    + exists (fst center), (snd center). reflexivity.
    + unfold Py.ints. rewrite Forall_map. apply Forall_forall.
      intros q _. exists (fst q), (snd q). reflexivity.
  - intros n validator. unfold Py.rotate_once.
    rewrite (py_validated_apply_int _ _ false validator _ _ _ _ _
               (py_shift_down_fn_int n)).
    rewrite (py_validated_apply_int _ _ false validator _ _ _ _ _
               (py_shift_left_fn_int n)).
    rewrite (py_validated_apply_int _ _ false validator _ _ _ _ _
               (py_shift_right_fn_int n)).
    rewrite (py_validated_apply_int _ _ true validator _ _ _ _ _
               (fun q =>
                  py_rotate_block_90_cw_int
                    (Py.mkPytromino (Py.ints blocks) (Py._color p)
                       (Py._type p) (Py.int_coord center) (Py._placed p))
                    center q eq_refl)).
    repeat split;
      match goal with
      | |- fst (if ?b then _ else _) <> _ => destruct b; discriminate
      end.
  - intros a b. rewrite py_place_at_int.
    destruct (Py._placed p); discriminate.
Qed.

(** The T piece placed at [(4, 0)], rotated and shifted down by
    [2^53]. *)
Lemma py_played_int_coordinates_witness :
  let p :=
    snd (Py.validated_apply (Py.shift_down_fn (Py.Int (2 ^ 53))) false
           Py.always_true
           (snd (Py.rotate_once Py.always_true
                   (snd (Py.place_at (Py.Int 4, Py.Int 0) py_sample_T))))) in
  Forall (fun pos => exists x y : Z, pos = (Py.Int x, Py.Int y))
    (Py._center_rot p :: Py._blocks_pos p).
Proof.
  cbv zeta.
  apply (py_played_int_coordinates sample_palette).
  apply Py.played_shift_down, Py.played_rotate, Py.played_place_at.
  apply (Py.played_factory sample_palette Types.T);
    [discriminate | discriminate | reflexivity].
Defined.

(** X15.  On a piece whose coordinates are ints the centre of rotation
    travels with the piece, so turning and placing can be swapped: the
    piece placed at an int coordinate and then rotated is the piece
    rotated and then placed at that coordinate. *)
Theorem py_rotate_once_place_at_commute (blocks : list (Z * Z))
    (color : rgb) (type : Types.t) (center : Z * Z) (placed : bool)
    (a b : Z) :
  let self :=
    Py.mkPytromino (Py.ints blocks) color type (Py.int_coord center) placed in
  snd (Py.rotate_once Py.always_true
         (snd (Py.place_at (Py.Int a, Py.Int b) self)))
  = snd (Py.place_at (Py.Int a, Py.Int b)
           (snd (Py.rotate_once Py.always_true self))).
Proof.
  cbv zeta. unfold Py.rotate_once.
  rewrite py_place_at_int.
  rewrite (py_validated_apply_int _ _ true Py.always_true blocks _ _ _ _
             (fun q =>
                py_rotate_block_90_cw_int
                  (Py.mkPytromino (Py.ints blocks) color type
                     (Py.int_coord center) placed)
                  center q eq_refl)).
  rewrite py_forallb_always_true. cbn [snd].
  rewrite py_place_at_int.
  destruct placed; cbn [snd].
  - rewrite (py_validated_apply_int _ _ true Py.always_true blocks _ _ _ _
               (fun q =>
                  py_rotate_block_90_cw_int
                    (Py.mkPytromino (Py.ints blocks) color type
                       (Py.int_coord center) true)
                    center q eq_refl)).
    now rewrite py_forallb_always_true.
  - rewrite (py_validated_apply_int _ _ true Py.always_true _ _ _ _ _
               (fun q =>
                  py_rotate_block_90_cw_int
                    (Py.mkPytromino
                       (Py.ints
                          (map (fun q => (fst q + a, snd q + b)%Z) blocks))
                       color type
                       (Py.int_coord (fst center + a, snd center + b)%Z)
                       true)
                    (fst center + a, snd center + b)%Z q eq_refl)).
    rewrite py_forallb_always_true. cbn [snd fst].
    rewrite !map_map. apply py_int_piece_congr; [| reflexivity].
    apply map_ext. int_pairs.
Qed.
